(** * Bloog: a shallow embedding of [blog.py]

    The request handlers of [blog.py] and the module-level helpers they call,
    written as Rocq functions.  Python values are a small tagged union,
    dictionaries are [gmap]s, and handler code, which writes to the datastore,
    to the response and to the render cache and which may raise, lives in a
    state-and-exception monad over a [world]. *)

From Stdlib Require Import ZArith Ascii String List Lia.
From stdpp Require Import base option list strings pretty gmap fin_maps.

Open Scope string_scope.
Open Scope list_scope.
Open Scope Z_scope.

(** ** Python strings and the regular expressions of [get_friendly_url]

    Titles are byte strings.  Without [re.UNICODE] or [re.LOCALE] the class
    [\s] is [ \t\n\r\f\v] and [\w] is [[a-zA-Z0-9_]]; [str.strip()] removes
    the same six whitespace characters. *)

Module Str.

Definition is_space (c : ascii) : bool :=
  let n := N_of_ascii c in
  ((9 <=? n) && (n <=? 13) || (n =? 32))%N.

Definition is_word (c : ascii) : bool :=
  let n := N_of_ascii c in
  ((48 <=? n) && (n <=? 57) || (65 <=? n) && (n <=? 90)
   || (97 <=? n) && (n <=? 122) || (n =? 95))%N.

Definition hyphen : ascii := "-"%char.

Definition is_hyphen (c : ascii) : bool := Ascii.eqb c hyphen.

(** [s.lstrip()], [s.rstrip()] and [s.strip()]. *)
Fixpoint lstrip (s : string) : string :=
  match s with
  | EmptyString => EmptyString
  | String c s' => if is_space c then lstrip s' else s
  end.

Fixpoint rstrip (s : string) : string :=
  match s with
  | EmptyString => EmptyString
  | String c s' =>
      match rstrip s' with
      | EmptyString => if is_space c then EmptyString else String c EmptyString
      | r => String c r
      end
  end.

Definition strip (s : string) : string := rstrip (lstrip s).

(** [re.sub('C+', rep, s)] for a character class [C]: every maximal run of
    characters of the class is replaced by [rep].  [in_run] tells whether the
    previous character belonged to the class. *)
Fixpoint sub_runs_from (p : ascii -> bool) (rep : string) (in_run : bool)
    (s : string) : string :=
  match s with
  | EmptyString => EmptyString
  | String c s' =>
      if p c then
        if in_run then sub_runs_from p rep true s'
        else String.append rep (sub_runs_from p rep true s')
      else String c (sub_runs_from p rep false s')
  end.

Definition sub_runs (p : ascii -> bool) (rep : string) (s : string) : string :=
  sub_runs_from p rep false s.

(** [re.sub('C', '', s)]: every character of the class is deleted. *)
Fixpoint delete_chars (p : ascii -> bool) (s : string) : string :=
  match s with
  | EmptyString => EmptyString
  | String c s' =>
      if p c then delete_chars p s' else String c (delete_chars p s')
  end.

(** The class [[^\w-]]. *)
Definition not_word_or_hyphen (c : ascii) : bool :=
  negb (is_word c || is_hyphen c).

(** Every character of [s] satisfies [p]. *)
Fixpoint all_chars (p : ascii -> bool) (s : string) : bool :=
  match s with
  | EmptyString => true
  | String c s' => p c && all_chars p s'
  end.

(** [s] holds no two hyphens in a row. *)
Fixpoint no_hyphen_run (s : string) : bool :=
  match s with
  | EmptyString => true
  | String c s' =>
      match s' with
      | String c' _ => negb (is_hyphen c && is_hyphen c') && no_hyphen_run s'
      | EmptyString => true
      end
  end.

(** The characters a slug is made of. *)
Definition slug_char (c : ascii) : bool := is_word c || is_hyphen c.

Definition starts_with_hyphen (s : string) : bool :=
  match s with
  | String c _ => is_hyphen c
  | EmptyString => false
  end.

End Str.

(** [get_friendly_url(title)]: the title is stripped, [re.sub('\s+', '-', _)]
    turns its whitespace runs into hyphens, [re.sub('[^\w-]', '', _)] deletes
    what is neither a word character nor a hyphen, and [re.sub('-+', '-', _)]
    collapses the hyphen runs. *)
Definition get_friendly_url (title : string) : string :=
  Str.sub_runs Str.is_hyphen "-"
    (Str.delete_chars Str.not_word_or_hyphen
       (Str.sub_runs Str.is_space "-" (Str.strip title))).

(** [s.lower()] on a byte string: only [A-Z] change. *)
Definition lower_char (c : ascii) : ascii :=
  let n := N_of_ascii c in
  if ((65 <=? n) && (n <=? 90))%N then ascii_of_N (n + 32) else c.

Fixpoint lower (s : string) : string :=
  match s with
  | EmptyString => EmptyString
  | String c s' => String (lower_char c) (lower s')
  end.

(** [s.split(sep)] for a one-character separator. *)
Fixpoint split_from (sep : ascii) (cur : string) (s : string) : list string :=
  match s with
  | EmptyString => [String.rev cur]
  | String c s' =>
      if Ascii.eqb c sep then String.rev cur :: split_from sep EmptyString s'
      else split_from sep (String c cur) s'
  end.

Definition split (sep : ascii) (s : string) : list string :=
  split_from sep EmptyString s.

(** ** Exceptions *)

Inductive exn :=
| ValueError
| KeyError (k : string)
| AttributeError
| TypeError.

(** ** [datetime.datetime] *)

Record datetime := mk_datetime {
  dt_year : Z; dt_month : Z; dt_day : Z;
  dt_hour : Z; dt_minute : Z; dt_second : Z; dt_microsecond : Z
}.

Definition is_leap (y : Z) : bool :=
  (y mod 4 =? 0) && (negb (y mod 100 =? 0) || (y mod 400 =? 0)).

Definition days_in_month (y m : Z) : Z :=
  if m =? 2 then (if is_leap y then 29 else 28)
  else if (m =? 4) || (m =? 6) || (m =? 9) || (m =? 11) then 30
  else 31.

(** [datetime.datetime(y, m, d, H, M, S)]: the constructor checks every field
    and raises [ValueError] for a day the month does not have. *)
Definition datetime_new (y m d H M S : Z) : exn + datetime :=
  if negb ((1 <=? y) && (y <=? 9999)) then inl ValueError
  else if negb ((1 <=? m) && (m <=? 12)) then inl ValueError
  else if negb ((1 <=? d) && (d <=? days_in_month y m)) then inl ValueError
  else if negb ((0 <=? H) && (H <=? 23)) then inl ValueError
  else if negb ((0 <=? M) && (M <=? 59)) then inl ValueError
  else if negb ((0 <=? S) && (S <=? 59)) then inl ValueError
  else inr (mk_datetime y m d H M S 0).

Definition datetime_fields (d : datetime) : list Z :=
  [dt_year d; dt_month d; dt_day d; dt_hour d; dt_minute d; dt_second d;
   dt_microsecond d].

Fixpoint lex_compare (a b : list Z) : comparison :=
  match a, b with
  | [], [] => Eq
  | [], _ :: _ => Lt
  | _ :: _, [] => Gt
  | x :: a', y :: b' =>
      match x ?= y with
      | Eq => lex_compare a' b'
      | c => c
      end
  end.

Definition datetime_compare (a b : datetime) : comparison :=
  lex_compare (datetime_fields a) (datetime_fields b).

Definition datetime_leb (a b : datetime) : bool :=
  match datetime_compare a b with Gt => false | _ => true end.

(** [string.atoi(s)], that is [int(s, 10)]: surrounding whitespace, an
    optional sign, at least one decimal digit; [ValueError] otherwise. *)
Definition digit_of (c : ascii) : option Z :=
  let n := N_of_ascii c in
  if ((48 <=? n) && (n <=? 57))%N then Some (Z.of_N (n - 48)) else None.

Fixpoint atoi_digits (acc : Z) (s : string) : option Z :=
  match s with
  | EmptyString => Some acc
  | String c s' =>
      match digit_of c with
      | Some d => atoi_digits (10 * acc + d) s'
      | None => None
      end
  end.

Definition atoi_unsigned (s : string) : option Z :=
  match s with
  | EmptyString => None
  | _ => atoi_digits 0 s
  end.

Definition atoi (s : string) : exn + Z :=
  let r :=
    match Str.strip s with
    | String "-"%char s' => Z.opp <$> atoi_unsigned s'
    | String "+"%char s' => atoi_unsigned s'
    | s' => atoi_unsigned s'
    end in
  match r with Some z => inr z | None => inl ValueError end.

(** ** Values, entities and queries *)

Inductive kind := Article | Comment.

Inductive value :=
| VNone
| VStr (s : string)
| VInt (n : Z)
| VDate (d : datetime)
| VTags (l : list string)
| VKey (k : kind) (id : N)
| VDict (l : list (string * string)).

Global Instance kind_eq_dec : EqDecision kind.
Proof. solve_decision. Defined.
Global Instance exn_eq_dec : EqDecision exn.
Proof. solve_decision. Defined.
Global Instance datetime_eq_dec : EqDecision datetime.
Proof. solve_decision. Defined.
Global Instance value_eq_dec : EqDecision value.
Proof. solve_decision. Defined.

(** Python truth value of a value. *)
Definition truthy (v : value) : bool :=
  match v with
  | VNone => false
  | VStr s => negb (String.eqb s "")
  | VInt n => negb (n =? 0)
  | VDate _ => true
  | VTags l => match l with [] => false | _ => true end
  | VKey _ _ => true
  | VDict l => match l with [] => false | _ => true end
  end.

(** [str(v)] where the code applies it. *)
Definition py_str (v : value) : string :=
  match v with
  | VStr s => s
  | VInt n => pretty n
  | VNone => "None"
  | _ => ""
  end.

(** A model instance: its kind, its datastore key once it has been put, and
    its attribute dictionary ([obj.__dict__]). *)
Record entity := mk_entity {
  e_kind : kind;
  e_key : option N;
  e_attrs : gmap string value
}.

(** Reading an attribute that was never set gives [None]. *)
Definition attr (e : entity) (k : string) : value :=
  default VNone (e_attrs e !! k).

Definition set_attr (e : entity) (k : string) (v : value) : entity :=
  mk_entity (e_kind e) (e_key e) (<[k := v]> (e_attrs e)).

Inductive filter_op := OpEq | OpGe | OpLe.

(** [db.Query(kind).filter(...).order('-prop')] *)
Record Query := mk_query {
  q_kind : kind;
  q_filters : list (string * filter_op * value);
  q_order_desc : option string
}.

Definition Query_new (k : kind) : Query := mk_query k [] None.
Definition filter_by (q : Query) (prop : string) (op : filter_op) (v : value)
    : Query :=
  mk_query (q_kind q) (q_filters q ++ [(prop, op, v)]) (q_order_desc q).
Definition order_desc (q : Query) (prop : string) : Query :=
  mk_query (q_kind q) (q_filters q) (Some prop).

(** Order on property values, for the inequality filters and for sorting. *)
Definition value_leb (a b : value) : bool :=
  match a, b with
  | VDate x, VDate y => datetime_leb x y
  | VInt x, VInt y => x <=? y
  | _, _ => false
  end.

(** An equality filter on a list property holds when the list has the value. *)
Definition value_matches (stored : value) (op : filter_op) (v : value) : bool :=
  match op with
  | OpEq =>
      match stored, v with
      | VTags l, VStr s => bool_decide (s ∈ l)
      | _, _ => bool_decide (stored = v)
      end
  | OpGe => value_leb v stored
  | OpLe => value_leb stored v
  end.

Definition entity_matches (q : Query) (e : entity) : bool :=
  bool_decide (e_kind e = q_kind q)
  && forallb (fun f : string * filter_op * value =>
                match e_attrs e !! f.1.1 with
                | Some stored => value_matches stored f.1.2 f.2
                | None => false
                end) (q_filters q).

(** Insertion into a list sorted newest first. *)
Fixpoint insert_desc (prop : string) (e : entity) (l : list entity)
    : list entity :=
  match l with
  | [] => [e]
  | x :: l' =>
      if value_leb (attr x prop) (attr e prop) then e :: l
      else x :: insert_desc prop e l'
  end.

Definition sort_desc (prop : string) (l : list entity) : list entity :=
  foldr (insert_desc prop) [] l.

(** The entities a query yields from the stored ones.  An entity without the
    sort property is not in the index the query reads. *)
Definition run_query (q : Query) (ds : list entity) : list entity :=
  let found := List.filter (entity_matches q) ds in
  match q_order_desc q with
  | None => found
  | Some prop =>
      sort_desc prop
        (List.filter (fun e => bool_decide (is_Some (e_attrs e !! prop))) found)
  end.

(** ** The world a handler runs in, and what it does to it *)

(** The context [page.render] is given by the page and article handlers. *)
Record render_context := mk_render_context {
  two_columns : bool;
  rc_title : value;
  rc_article : entity;
  rc_comments : list entity
}.

(** What a handler does that can be seen from outside, in the order it does
    it: datastore writes, the invalidation of the render cache, and what it
    sends to the client.  [logging.debug] is left out. *)
Inductive effect :=
| EPut (e : entity)
| EDelete (e : entity)
| EInvalidateCache
| ERedirect (url : string)
| EError (code : Z)
| ESuccessfulPost (permalink : value) (type : string)
| EWrite (s : string)
| ERender (ctx : render_context)
| ERenderQuery (name : string) (results : list entity)
    (extra : list (string * string))
| EUnauthorized.

Record world := mk_world {
  datastore : list entity;       (* the stored entities, oldest key first *)
  next_id : N;                   (* the next key the datastore hands out *)
  clock : nat -> datetime;       (* what successive [datetime.now()] return *)
  ticks : nat;                   (* how many times the clock was read *)
  cache_flushes : nat;           (* how often the render cache was cleared *)
  trace : list effect            (* the effects so far, oldest first *)
}.

Inductive outcome (A : Type) :=
| Ok (a : A) (w : world)
| Raise (e : exn) (w : world).
Arguments Ok {A} a w.
Arguments Raise {A} e w.

Definition final_world {A} (o : outcome A) : world :=
  match o with Ok _ w => w | Raise _ w => w end.

(** Handler code: a state transformer on the world that returns or raises. *)
Definition M (A : Type) : Type := world -> outcome A.

Global Instance M_ret : MRet M := fun A a w => Ok a w.
Global Instance M_bind : MBind M := fun A B f m w =>
  match m w with
  | Ok a w' => f a w'
  | Raise e w' => Raise e w'
  end.

Definition raise {A} (e : exn) : M A := fun w => Raise e w.

Definition lift {A} (r : exn + A) : M A :=
  match r with inl e => raise e | inr a => mret a end.

Definition emit (ef : effect) : M unit := fun w =>
  Ok tt (mk_world (datastore w) (next_id w) (clock w) (ticks w)
           (cache_flushes w) (trace w ++ [ef])).

(** [datetime.datetime.now()] *)
Definition now : M datetime := fun w =>
  Ok (clock w (ticks w))
     (mk_world (datastore w) (next_id w) (clock w) (S (ticks w))
        (cache_flushes w) (trace w)).

Definition same_key (k : kind) (id : N) (e : entity) : bool :=
  bool_decide (e_kind e = k) && bool_decide (e_key e = Some id).

(** [entity.put()]: a new entity receives the next key and is added; one that
    has a key replaces the stored entity of that key.  The key is returned. *)
Definition put (e : entity) : M value := fun w =>
  match e_key e with
  | Some id =>
      let ds :=
        if existsb (same_key (e_kind e) id) (datastore w)
        then map (fun x => if same_key (e_kind e) id x then e else x)
                 (datastore w)
        else datastore w ++ [e] in
      Ok (VKey (e_kind e) id)
         (mk_world ds (next_id w) (clock w) (ticks w) (cache_flushes w)
            (trace w ++ [EPut e]))
  | None =>
      let e' := mk_entity (e_kind e) (Some (next_id w)) (e_attrs e) in
      Ok (VKey (e_kind e) (next_id w))
         (mk_world (datastore w ++ [e']) (N.succ (next_id w)) (clock w)
            (ticks w) (cache_flushes w) (trace w ++ [EPut e']))
  end.

(** [entity.delete()] *)
Definition delete_entity_from_store (e : entity) : M unit := fun w =>
  let ds :=
    match e_key e with
    | Some id => List.filter (fun x => negb (same_key (e_kind e) id x))
                   (datastore w)
    | None => datastore w
    end in
  Ok tt (mk_world ds (next_id w) (clock w) (ticks w) (cache_flushes w)
           (trace w ++ [EDelete e])).

(** [query.fetch(limit=n)] and [query.get()] *)
Definition fetch (q : Query) (limit : nat) : M (list entity) := fun w =>
  Ok (take limit (run_query q (datastore w))) w.

Definition get (q : Query) : M (option entity) := fun w =>
  Ok (head (run_query q (datastore w))) w.

(** [article.comment_set]: the comments that refer to the article. *)
Definition comment_set (article : entity) : M (list entity) := fun w =>
  Ok (match e_key article with
      | Some id =>
          run_query (filter_by (Query_new Comment) "article" OpEq
                       (VKey (e_kind article) id)) (datastore w)
      | None => []
      end) w.

(** Modelled from the spec: [view.invalidate_cache] is not among the sources;
    it clears the process-wide render cache. *)
Definition invalidate_cache : M unit := fun w =>
  Ok tt (mk_world (datastore w) (next_id w) (clock w) (ticks w)
           (S (cache_flushes w)) (trace w ++ [EInvalidateCache])).

(** [handler.error(code)], [handler.redirect(url)] and
    [handler.response.out.write(s)] of the web framework. *)
Definition error (code : Z) : M unit := emit (EError code).
Definition redirect (url : string) : M unit := emit (ERedirect url).
Definition response_write (s : string) : M unit := emit (EWrite s).

(** Modelled from the spec: [view.ViewPage.render] is not among the sources;
    it renders the context a handler gives it into the response. *)
Definition render (ctx : render_context) : M unit := emit (ERender ctx).

(** Modelled from the spec: [view.ViewPage.render_query] is not among the
    sources; it renders what the query yields under the given context key. *)
Definition render_query (name : string) (q : Query)
    (extra : list (string * string)) : M unit :=
  fun w => emit (ERenderQuery name (run_query q (datastore w)) extra) w.

(** Modelled from the spec: [restful.successful_post_response] is not among
    the sources; it produces the success response that identifies the new
    entity by its permalink and its type. *)
Definition successful_post_response (permalink : value) (type : string)
    : M unit :=
  emit (ESuccessfulPost permalink type).

(** ** Requests *)

(** A request: its form fields and the roles its caller holds. *)
Record request := mk_request {
  form : gmap string string;
  roles : list string
}.

(** [request.get(name)]: the empty string when the field was not sent. *)
Definition request_get (req : request) (name : string) : string :=
  default "" (form req !! name).

(** ** The field extractor *)

(** A field spec of [restful.get_hash_from_request]: a field name, a name
    with a transform of the raw value, or a name with a transform of the
    values extracted for other names. *)
Inductive field_spec :=
| Plain (name : string)
| Transformed (name : string) (f : value -> M value)
| Derived (name : string) (f : list value -> M value) (deps : list string).

Definition store_field (name : string) (v : value) (h : gmap string value)
    : gmap string value :=
  if truthy v then <[name := v]> h else h.

Definition extract_field (req : request) (h : gmap string value)
    (s : field_spec) : M (gmap string value) :=
  match s with
  | Plain name => mret (store_field name (VStr (request_get req name)) h)
  | Transformed name f =>
      v ← f (VStr (request_get req name));
      mret (store_field name v h)
  | Derived name f deps =>
      v ← f (map (fun d => default VNone (h !! d)) deps);
      mret (store_field name v h)
  end.

Fixpoint extract_fields (req : request) (h : gmap string value)
    (specs : list field_spec) : M (gmap string value) :=
  match specs with
  | [] => mret h
  | s :: rest => h' ← extract_field req h s; extract_fields req h' rest
  end.

(** Modelled from the spec: [restful.get_hash_from_request] is not among the
    sources.  The specs are processed strictly in list order into a growing
    mapping.  A plain field is passed through as it is, or omitted when it is
    absent or empty; a transform receives the raw request value; a transform
    with dependencies receives the values already extracted for them; the
    extractor inserts no default, so a result without a value is omitted. *)
Definition get_hash_from_request (req : request) (specs : list field_spec)
    : M (gmap string value) :=
  extract_fields req ∅ specs.

(** [property_hash[key]] *)
Definition item (h : gmap string value) (k : string) : M value :=
  match h !! k with
  | Some v => mret v
  | None => raise (KeyError k)
  end.

(** Modelled from the spec: [authorized.role] is not among the sources.
    Before the method body runs the gate checks that the caller holds the
    required role; otherwise it produces the unauthorized response and the
    body does not run. *)
Definition role (required : string) (req : request) (body : M unit) : M unit :=
  if bool_decide (required ∈ roles req) then body else emit EUnauthorized.

(** ** What [blog.py] imports *)

(** [config.blog['legacy_id_mapping']]: [regex] gives [group(1)] of
    [re.match(regex, path)] when the path matches. *)
Record legacy_mapping := mk_legacy_mapping {
  regex : string -> option string;
  query : string -> Query
}.

Record externals := mk_externals {
  strptime : string -> option datetime;   (* format '%Y-%m-%d %H:%M:%S' *)
  textile : string -> string;             (* textile.textile *)
  py_hash : value -> value -> value -> Z; (* hash of a 3-tuple *)
  is_big : entity -> bool;                (* article.is_big() *)
  redirects : list (string * string);     (* legacy_aliases.redirects *)
  legacy_id_mapping : option legacy_mapping
}.

(** Modelled from the spec: [Article.set_associated_data] is not among the
    sources; the article carries an optional bag of extra key/value fields. *)
Definition set_associated_data (e : entity) (d : list (string * string))
    : entity :=
  set_attr e "associated_data" (VDict d).

(** ** [blog.py] *)

Section Handlers.

Variable ext : externals.

(** [get_datetime(time_string)] *)
Definition get_datetime (time_string : value) : M value :=
  if truthy time_string then
    match time_string with
    | VStr s =>
        match strptime ext s with
        | Some d => mret (VDate d)
        | None => raise ValueError
        end
    | _ => raise TypeError
    end
  else d ← now; mret (VDate d).

(** [get_tags(tag_string)] *)
Definition get_tags (tag_string : value) : M value :=
  if truthy tag_string then
    match tag_string with
    | VStr s =>
        mret (VTags (map Str.strip
                       (List.filter (fun t => negb (String.eqb t ""))
                          (split ","%char s))))
    | _ => raise AttributeError
    end
  else mret VNone.

(** [get_friendly_url] applied to whatever the extractor hands over:
    [title.strip()] needs a string. *)
Definition friendly_url_of (title : value) : M string :=
  match title with
  | VStr s => mret (get_friendly_url s)
  | _ => raise AttributeError
  end.

(** [get_html(body, markup_type)] *)
Definition get_html (args : list value) : M value :=
  match args with
  | [body; markup_type] =>
      if bool_decide (markup_type = VStr "textile")
      then mret (VStr (textile ext (py_str body)))
      else mret body
  | _ => raise TypeError
  end.

(** [permalink_funcs]: a dictionary with the keys ['page'] and ['blog']. *)
Definition permalink_page (args : list value) : M value :=
  match args with
  | [title; date] => s ← friendly_url_of title; mret (VStr s)
  | _ => raise TypeError
  end.

Definition permalink_blog (args : list value) : M value :=
  match args with
  | [title; date] =>
      match date with
      | VDate d =>
          s ← friendly_url_of title;
          mret (VStr (pretty (dt_year d) +:+ "/" +:+ pretty (dt_month d)
                      +:+ "/" +:+ s))
      | _ => raise AttributeError
      end
  | _ => raise TypeError
  end.

Definition permalink_funcs (article_type : string)
    : M (list value -> M value) :=
  if String.eqb article_type "page" then mret permalink_page
  else if String.eqb article_type "blog" then mret permalink_blog
  else raise (KeyError article_type).

(** [fill_optional_properties(obj, property_dict)] *)
Definition fill_optional_properties (obj : entity)
    (property_dict : gmap string value) : entity :=
  map_fold
    (fun key value obj =>
       if truthy value && negb (bool_decide (is_Some (e_attrs obj !! key)))
       then set_attr obj key value else obj)
    obj property_dict.

(** [model.Article(...)] and [model.Comment(...)] with keyword arguments. *)
Definition model_new (k : kind) (kwargs : list (string * value)) : entity :=
  mk_entity k None (list_to_map kwargs).

Definition article_fields : list field_spec :=
  [Plain "title"; Plain "body"; Plain "format"; Plain "legacy_id";
   Transformed "published" get_datetime;
   Transformed "updated" get_datetime;
   Transformed "tags" get_tags;
   Derived "html" get_html ["body"; "format"]].

Definition process_article_submission (req : request) (article_type : string)
    : M unit :=
  permalink_func ← permalink_funcs article_type;
  property_hash ← get_hash_from_request req
    (article_fields
     ++ [Derived "permalink" permalink_func ["title"; "published"]]);
  permalink ← item property_hash "permalink";
  title ← item property_hash "title";
  body ← item property_hash "body";
  html ← item property_hash "html";
  published ← item property_hash "published";
  updated ← item property_hash "updated";
  let article := model_new Article
    [("permalink", permalink); ("article_type", VStr article_type);
     ("title", title); ("body", body); ("html", html);
     ("published", published); ("updated", updated);
     ("format", VStr "html")] in
  let article := fill_optional_properties article property_hash in
  let article := set_associated_data article
    [("relevant_links", request_get req "relevant_links");
     ("amazon_items", request_get req "amazon_items")] in
  _ ← put article;
  successful_post_response (attr article "permalink") article_type;;
  invalidate_cache.

(** [article.num_comments += 1] after [if not article.num_comments] *)
Definition bump_num_comments (article : entity) : M entity :=
  if negb (truthy (attr article "num_comments"))
  then mret (set_attr article "num_comments" (VInt 1))
  else
    match attr article "num_comments" with
    | VInt n => mret (set_attr article "num_comments" (VInt (n + 1)))
    | _ => raise TypeError
    end.

Definition comment_fields : list field_spec :=
  [Plain "name"; Plain "email"; Plain "title"; Plain "body"; Plain "thread";
   Transformed "published" get_datetime].

Definition process_comment_submission (req : request)
    (article : option entity) : M unit :=
  match article with
  | None => error 404
  | Some article =>
      article ← bump_num_comments article;
      article_key ← put article;
      property_hash ← get_hash_from_request req comment_fields;
      name ← item property_hash "name";
      email ← item property_hash "email";
      body ← item property_hash "body";
      let comment_key := VStr (pretty (py_hash ext name email body)) in
      body' ← item property_hash "body";
      thread ← item property_hash "thread";
      let comment := model_new Comment
        [("permalink", comment_key); ("body", body');
         ("article", article_key); ("thread", thread)] in
      let comment := fill_optional_properties comment property_hash in
      _ ← put comment;
      successful_post_response (attr comment "permalink") "comment";;
      invalidate_cache
  end.

(** [len(v)] *)
Definition py_len (v : value) : M Z :=
  match v with
  | VStr s => mret (Z.of_nat (String.length s))
  | VTags l => mret (Z.of_nat (length l))
  | VDict l => mret (Z.of_nat (length l))
  | _ => raise TypeError
  end.

(** [article.is_big() or len(article.html) + len(comments)*80 > 2000] *)
Definition use_two_columns (article : entity) (comments : list entity)
    : M bool :=
  if is_big ext article then mret true
  else
    n ← py_len (attr article "html");
    mret (2000 <? n + Z.of_nat (length comments) * 80).

Definition by_permalink (permalink : string) : Query :=
  filter_by (Query_new Article) "permalink" OpEq (VStr permalink).

(** *** RootHandler *)

Definition RootHandler_get (req : request) : M unit :=
  render_query "articles"
    (order_desc (filter_by (Query_new Article) "article_type" OpEq
                   (VStr "blog")) "published") [].

Definition RootHandler_post (req : request) : M unit :=
  role "admin" req (process_article_submission req "page").

(** *** PageHandler *)

(** The loop over [legacy_aliases.redirects]; the table is given as its items
    in iteration order. *)
Fixpoint find_alias (path : string) (aliases : list (string * string))
    : option string :=
  match aliases with
  | [] => None
  | (alias, target) :: rest =>
      if String.eqb (lower path) (lower alias) then Some target
      else find_alias path rest
  end.

Definition legacy_lookup (path : string) : M (option entity) :=
  match legacy_id_mapping ext with
  | Some mapping =>
      match regex mapping path with
      | Some group1 => get (query mapping group1)
      | None => mret None
      end
  | None => mret None
  end.

Definition PageHandler_get (req : request) (path : string) : M unit :=
  match find_alias path (redirects ext) with
  | Some target => redirect ("/" +:+ target)
  | None =>
      article ← legacy_lookup path;
      article ← match article with
                | Some a => mret (Some a)
                | None => get (by_permalink path)
                end;
      match article with
      | Some article =>
          comments ← comment_set article;
          two ← use_two_columns article comments;
          render (mk_render_context two (attr article "title") article
                    comments)
      | None => redirect "/404.html"
      end
  end.

Definition PageHandler_post (req : request) (path : string) : M unit :=
  role "user" req
    (article ← get (by_permalink path);
     process_comment_submission req article).

(** ['Deleted ' + permalink] *)
Definition deleted_message (permalink : value) : M string :=
  match permalink with
  | VStr p => mret ("Deleted " +:+ p)
  | _ => raise TypeError
  end.

Definition delete_entity (q : Query) : M unit :=
  targets ← fetch q 1;
  match targets with
  | target :: _ =>
      let permalink := attr target "permalink" in
      delete_entity_from_store target;;
      msg ← deleted_message permalink;
      response_write msg;;
      invalidate_cache
  | [] => error 404
  end.

Definition PageHandler_delete (req : request) (path : string) : M unit :=
  role "admin" req
    (let model_class := lower path in
     if String.eqb model_class "article" then delete_entity (Query_new Article)
     else if String.eqb model_class "comment"
          then delete_entity (Query_new Comment)
          else error 404).

(** *** TagHandler and SearchHandler *)

(** [chr(string.atoi(dd, 16))] for the two decimal digits [\d\d] matched. *)
Definition hex_char (d1 d2 : ascii) : option ascii :=
  match digit_of d1, digit_of d2 with
  | Some a, Some b => Some (ascii_of_N (Z.to_N (16 * a + b)))
  | _, _ => None
  end.

(** [re.sub('(%25|%)(\d\d)', lambda m: chr(string.atoi(m.group(2), 16)), s)]:
    at each position the alternative [%25] is tried before [%], each followed
    by two decimal digits; a match is replaced by the character the digits
    name in base 16, anything else is copied. *)
Fixpoint unquote (s : string) : string :=
  match s with
  | EmptyString => EmptyString
  | String c s1 =>
      if Ascii.eqb c "%" then
        match s1 with
        | String a (String b s3) =>
            let short :=
              match hex_char a b with
              | Some ch => String ch (unquote s3)
              | None => String c (unquote s1)
              end in
            if Ascii.eqb a "2" && Ascii.eqb b "5" then
              match s3 with
              | String d1 (String d2 s5) =>
                  match hex_char d1 d2 with
                  | Some ch => String ch (unquote s5)
                  | None => short
                  end
              | _ => short
              end
            else short
        | _ => String c (unquote s1)
        end
      else String c (unquote s1)
  end.

Definition tagged (tag : string) : Query :=
  order_desc (filter_by (Query_new Article) "tags" OpEq (VStr tag))
    "published".

Definition TagHandler_get (req : request) (encoded_tag : string) : M unit :=
  let tag := unquote encoded_tag in
  render_query "articles" (tagged tag) [("tag", tag)].

Definition SearchHandler_get (req : request) : M unit :=
  let search_term := request_get req "s" in
  render_query "articles" (tagged search_term)
    [("search_term", search_term)].

(** *** YearHandler and MonthHandler *)

Definition published_between (start_date end_date : datetime) : Query :=
  filter_by
    (filter_by (order_desc (Query_new Article) "published")
       "published" OpGe (VDate start_date))
    "published" OpLe (VDate end_date).

Definition YearHandler_get (req : request) (year : string) : M unit :=
  y ← lift (atoi year);
  start_date ← lift (datetime_new y 1 1 0 0 0);
  y' ← lift (atoi year);
  end_date ← lift (datetime_new y' 12 31 23 59 59);
  render_query "articles" (published_between start_date end_date)
    [("title", "Articles for " +:+ year); ("year", year)].

Definition MonthHandler_get (req : request) (year month : string) : M unit :=
  y ← lift (atoi year);
  m ← lift (atoi month);
  start_date ← lift (datetime_new y m 1 0 0 0);
  y' ← lift (atoi year);
  m' ← lift (atoi month);
  end_date ← lift (datetime_new y' m' 31 23 59 59);
  render_query "articles" (published_between start_date end_date)
    [("title", "Articles for " +:+ month +:+ "/" +:+ year);
     ("year", year); ("month", month)].

Definition MonthHandler_post (req : request) (year month : string) : M unit :=
  process_article_submission req "blog".

(** *** ArticleHandler *)

Definition ArticleHandler_get (req : request) (year month perm_stem : string)
    : M unit :=
  article ← get (by_permalink (year +:+ "/" +:+ month +:+ "/" +:+ perm_stem));
  comments ← match article with
             | Some a => comment_set a
             | None => mret []
             end;
  match article with
  | Some a =>
      two ← use_two_columns a comments;
      render (mk_render_context two (attr a "title") a comments)
  | None => raise AttributeError      (* [None.is_big()] *)
  end.

Definition ArticleHandler_put (req : request) (year month perm_stem : string)
    : M unit :=
  role "admin" req invalidate_cache.

Definition ArticleHandler_delete (req : request)
    (year month perm_stem : string) : M unit :=
  role "admin" req invalidate_cache.

Definition ArticleHandler_post (req : request) (year month perm_stem : string)
    : M unit :=
  role "user" req
    (let permalink := year +:+ "/" +:+ month +:+ "/" +:+ perm_stem in
     article ← get (by_permalink permalink);
     process_comment_submission req article).

End Handlers.

(** A world with an empty datastore whose clock always shows [d]. *)
Definition empty_world (d : datetime) : world :=
  mk_world [] 1%N (fun _ => d) 0 0 [].

(** ** Notions the statements below are written with *)

(** Code is quiet when it leaves the datastore, the render cache and the
    trace as they are, whether it returns or raises. *)
Definition quiet {A} (m : M A) : Prop :=
  forall w,
    trace (final_world (m w)) = trace w
    /\ datastore (final_world (m w)) = datastore w
    /\ next_id (final_world (m w)) = next_id w
    /\ cache_flushes (final_world (m w)) = cache_flushes w.

(** A field spec is quiet when its transform is. *)
Definition quiet_spec (s : field_spec) : Prop :=
  match s with
  | Plain _ => True
  | Transformed _ f => forall v, quiet (f v)
  | Derived _ f _ => forall args, quiet (f args)
  end.

(** Every spec named [k] is a plain one. *)
Definition plain_for (k : string) (s : field_spec) : bool :=
  match s with
  | Plain _ => true
  | Transformed n _ | Derived n _ _ => negb (String.eqb n k)
  end.

(** A plain spec named [k]. *)
Definition is_plain_named (k : string) (s : field_spec) : bool :=
  match s with
  | Plain n => String.eqb n k
  | _ => false
  end.

(** A [published] field [get_datetime] accepts: not sent, or parsed by
    [strptime]. *)
Definition well_formed_time (ext : externals) (raw : string) : Prop :=
  raw = "" \/ is_Some (strptime ext raw).

(** The entries of the property mapping a comment submission reads without
    a check. *)
Definition comment_required : list string :=
  ["name"; "email"; "body"; "thread"].

(** The entity a [put] writes: the entity itself, with a fresh key when it had
    none. *)
Definition stored_as (e : entity) (w : world) : entity :=
  match e_key e with
  | Some _ => e
  | None => mk_entity (e_kind e) (Some (next_id w)) (e_attrs e)
  end.

(** The values of a comment counter: unset, or a number. *)
Definition is_counter (v : value) : bool :=
  match v with VNone | VInt _ => true | _ => false end.

(** The counter after one more comment. *)
Definition next_count (v : value) : Z :=
  match v with
  | VInt n => if n =? 0 then 1 else n + 1
  | _ => 1
  end.

(** The parent article with its counter raised. *)
Definition counted (article : entity) : entity :=
  set_attr article "num_comments"
    (VInt (next_count (attr article "num_comments"))).

(** The counters [bump_num_comments] can raise: a counter, or anything that
    counts as false. *)
Definition counter_ok (article : entity) : bool :=
  is_counter (attr article "num_comments")
  || negb (truthy (attr article "num_comments")).

(** ** Sample inputs *)

Definition sample_time : datetime := mk_datetime 2024 3 5 10 30 0 123.

Definition sample_strptime (s : string) : option datetime :=
  if String.eqb s "2024-03-05 10:30:00"
  then Some (mk_datetime 2024 3 5 10 30 0 0)
  else if String.eqb s "2023-12-31 23:59:59"
       then Some (mk_datetime 2023 12 31 23 59 59 0)
       else None.

Definition sample_hash (name email body : value) : Z :=
  Z.of_nat (String.length (py_str name +:+ py_str email +:+ py_str body)).

Definition sample_ext : externals :=
  mk_externals sample_strptime (fun s => s) sample_hash (fun _ => false)
    [("About-Me", "about")] None.

Definition sample_article_request : request :=
  mk_request (list_to_map [("title", "Hello World"); ("body", "Some text")])
    ["admin"].

Definition about_page : entity :=
  mk_entity Article (Some 1%N)
    (list_to_map [("permalink", VStr "about-me"); ("title", VStr "About");
                  ("html", VStr "<p>me</p>")]).

Definition sample_world : world :=
  mk_world [about_page] 2%N (fun _ => sample_time) 0 0 [].

Definition sample_comment_request : request :=
  mk_request
    (list_to_map [("name", "Ann"); ("email", "ann@example.org");
                  ("body", "Nice"); ("thread", "1")])
    ["user"].

Definition later_comment_request : request :=
  mk_request
    (list_to_map [("name", "Ann"); ("email", "ann@example.org");
                  ("body", "Nice"); ("thread", "7");
                  ("published", "2023-12-31 23:59:59")])
    ["user"].

Definition anonymous_comment_request : request :=
  mk_request (list_to_map [("body", "Nice"); ("thread", "1")]) ["user"].

(** ** Further notions *)

(** The string starts with whitespace. *)
Definition first_is_space (s : string) : bool :=
  match s with
  | String c _ => Str.is_space c
  | EmptyString => false
  end.

(** The second world shows the same datastore, keys, cache and trace. *)
Definition unchanged (w w' : world) : Prop :=
  trace w' = trace w /\ datastore w' = datastore w
  /\ next_id w' = next_id w /\ cache_flushes w' = cache_flushes w.

(** Code that, when it raises, has changed nothing. *)
Definition fails_quietly {A} (m : M A) : Prop :=
  forall w e w', m w = Raise e w' -> unchanged w w'.

(** The datastore after the put of an entity that has the key [id]. *)
Definition replaced (e : entity) (id : N) (ds : list entity) : list entity :=
  if existsb (same_key (e_kind e) id) ds
  then map (fun x => if same_key (e_kind e) id x then e else x) ds
  else ds ++ [e].

(** The comments that refer to the article of kind [k] and key [id]. *)
Definition comments_of (k : kind) (id : N) (ds : list entity) : list entity :=
  run_query (filter_by (Query_new Comment) "article" OpEq (VKey k id)) ds.


(** The list has each entity before those with a smaller value of [prop]. *)
Fixpoint newest_first (prop : string) (l : list entity) : bool :=
  match l with
  | a :: l' =>
      match l' with
      | b :: _ => value_leb (attr b prop) (attr a prop) && newest_first prop l'
      | [] => true
      end
  | [] => true
  end.

(** The entity has a date under [prop]. *)
Definition dated (prop : string) (e : entity) : Prop :=
  exists d, e_attrs e !! prop = Some (VDate d).

(** The fields of a date are those of a calendar date and a time of day. *)
Definition calendar_date (d : datetime) : Prop :=
  1 <= dt_month d <= 12 /\ 1 <= dt_day d <= 31
  /\ 0 <= dt_hour d <= 23 /\ 0 <= dt_minute d <= 59
  /\ 0 <= dt_second d <= 59 /\ 0 <= dt_microsecond d <= 999999.

(** The date lies after [23:59:59] sharp on the 31st of its month. *)
Definition past_last_second (d : datetime) : Prop :=
  dt_day d = 31 /\ dt_hour d = 23 /\ dt_minute d = 59
  /\ dt_second d = 59 /\ 0 < dt_microsecond d.

(** The year is one the calendar has. *)
Definition year_ok (y : Z) : bool := (1 <=? y) && (y <=? 9999).

(** The month is one of the seven with 31 days. *)
Definition long_month (y m : Z) : bool :=
  (1 <=? m) && (m <=? 12) && (days_in_month y m =? 31).

(** The stored value is the string, or a list that holds it. *)
Definition holds (stored : value) (s : string) : Prop :=
  stored = VStr s \/ exists l, stored = VTags l /\ s ∈ l.

(** A stored [published] value is a date. *)
Definition published_dates (ds : list entity) : Prop :=
  forall e v, e ∈ ds -> e_attrs e !! "published" = Some v ->
              exists d, v = VDate d.

(** The character is a percent sign. *)
Definition is_percent (c : ascii) : bool := Ascii.eqb c "%".

(** ** Further sample inputs *)

Definition malformed_time_request : request :=
  mk_request
    (list_to_map [("title", "Hello World"); ("body", "Some text");
                  ("published", "yesterday")])
    ["admin"].

Definition sample_posted : world :=
  final_world
    (MonthHandler_post sample_ext sample_article_request "2024" "03"
       sample_world).

Definition sample_post : entity :=
  default about_page (last (datastore sample_posted)).

Definition sample_commented : world :=
  final_world
    (process_comment_submission sample_ext sample_comment_request
       (Some about_page) sample_world).

Definition sample_search_request : request :=
  mk_request (list_to_map [("s", "rocq")]) [].

Definition bare_article : entity := mk_entity Article (Some 5%N) ∅.

Definition sample_page_posted : world :=
  final_world (RootHandler_post sample_ext sample_article_request sample_world).

Definition sample_page : entity :=
  default about_page (last (datastore sample_page_posted)).

(** * Reasoning about handler code *)

Lemma bind_run {A B} (m : M A) (k : A -> M B) (w : world) :
  (m ≫= k) w =
  match m w with
  | Ok a w' => k a w'
  | Raise e w' => Raise e w'
  end.
Proof. reflexivity. Qed.

Lemma bind_Ok_inv {A B} (m : M A) (k : A -> M B) (w w' : world) (b : B) :
  (m ≫= k) w = Ok b w' ->
  exists a w1, m w = Ok a w1 /\ k a w1 = Ok b w'.
Proof. rewrite bind_run. destruct (m w) as [a w1|e w1]; [eauto | done]. Qed.

Lemma quiet_ret {A} (a : A) : quiet (mret a).
Proof. by intros w. Qed.

Lemma quiet_raise {A} (e : exn) : quiet (@raise A e).
Proof. by intros w. Qed.

Lemma quiet_bind {A B} (m : M A) (k : A -> M B) :
  quiet m -> (forall a, quiet (k a)) -> quiet (m ≫= k).
Proof.
  intros Hm Hk w. rewrite bind_run. specialize (Hm w).
  destruct (m w) as [a w1|e w1]; simpl in Hm; [|done].
  destruct (Hk a w1) as (-> & -> & -> & ->). done.
Qed.

Lemma quiet_now : quiet now.
Proof. by intros w. Qed.

Lemma quiet_item h k : quiet (item h k).
Proof.
  unfold item. destruct (h !! k); [apply quiet_ret | apply quiet_raise].
Qed.

Lemma quiet_get q : quiet (get q).
Proof. by intros w. Qed.

Lemma quiet_comment_set a : quiet (comment_set a).
Proof. by intros w. Qed.

Create HintDb quiet.
#[export] Hint Resolve quiet_ret quiet_raise quiet_now quiet_item quiet_get
  quiet_comment_set : quiet.

Ltac quiet_cases :=
  repeat first
    [ progress auto with quiet
    | apply quiet_bind; [|intros ?]
    | match goal with
      | |- quiet (match ?x with _ => _ end) => destruct x
      | |- quiet (if ?x then _ else _) => destruct x
      end ].

Lemma quiet_get_datetime ext v : quiet (get_datetime ext v).
Proof. unfold get_datetime. quiet_cases. Qed.

Lemma quiet_get_tags v : quiet (get_tags v).
Proof. unfold get_tags. quiet_cases. Qed.

Lemma quiet_friendly_url_of v : quiet (friendly_url_of v).
Proof. unfold friendly_url_of. quiet_cases. Qed.

#[export] Hint Resolve quiet_get_datetime quiet_get_tags
  quiet_friendly_url_of : quiet.

Lemma quiet_get_html ext args : quiet (get_html ext args).
Proof. unfold get_html. quiet_cases. Qed.

Lemma quiet_permalink_page args : quiet (permalink_page args).
Proof. unfold permalink_page. quiet_cases. Qed.

Lemma quiet_permalink_blog args : quiet (permalink_blog args).
Proof. unfold permalink_blog. quiet_cases. Qed.

#[export] Hint Resolve quiet_get_html quiet_permalink_page
  quiet_permalink_blog : quiet.

Lemma quiet_extract_field req h s :
  quiet_spec s -> quiet (extract_field req h s).
Proof. destruct s; simpl; intros Hs; quiet_cases. Qed.

Lemma quiet_extract_fields req specs :
  Forall quiet_spec specs -> forall h, quiet (extract_fields req h specs).
Proof.
  induction 1 as [|s specs Hs _ IH]; intros h; simpl; [apply quiet_ret|].
  apply quiet_bind; [by apply quiet_extract_field | auto].
Qed.

Lemma extract_fields_app req h l1 l2 w :
  extract_fields req h (l1 ++ l2) w
  = (extract_fields req h l1 ≫= fun h' => extract_fields req h' l2) w.
Proof.
  revert h w. induction l1 as [|s l1 IH]; intros h w; simpl; [done|].
  rewrite !bind_run.
  destruct (extract_field req h s w) as [h1 w1|e w1]; [|done].
  rewrite IH. by rewrite bind_run.
Qed.

Lemma lookup_store_field name v (h : gmap string value) k :
  store_field name v h !! k
  = if String.eqb name k && truthy v then Some v else h !! k.
Proof.
  unfold store_field. destruct (String.eqb_spec name k) as [->|Hne]; simpl.
  - destruct (truthy v); [apply lookup_insert_eq | done].
  - destruct (truthy v); [by apply lookup_insert_ne | done].
Qed.

(** What the extractor leaves under a name that only plain specs fill: the
    raw request value when it is not empty, nothing new otherwise. *)
Lemma extract_fields_plain_lookup req k specs :
  forallb (plain_for k) specs = true ->
  forall h w h' w',
    extract_fields req h specs w = Ok h' w' ->
    h' !! k =
      if existsb (is_plain_named k) specs
         && negb (String.eqb (request_get req k) "")
      then Some (VStr (request_get req k)) else h !! k.
Proof.
  induction specs as [|s specs IH]; simpl; intros Hall h w h' w' Hrun.
  - by inversion Hrun.
  - apply andb_true_iff in Hall as [Hs Hall].
    apply bind_Ok_inv in Hrun as (h1 & w1 & Hstep & Hrest).
    rewrite (IH Hall _ _ _ _ Hrest).
    assert (Hh1 : h1 !! k =
                  if is_plain_named k s
                     && negb (String.eqb (request_get req k) "")
                  then Some (VStr (request_get req k)) else h !! k).
    { destruct s as [n|n f|n f deps]; simpl in *.
      - inversion Hstep; subst. rewrite lookup_store_field. simpl.
        by destruct (String.eqb_spec n k) as [->|].
      - apply bind_Ok_inv in Hstep as (v & w2 & _ & Hret).
        inversion Hret; subst. rewrite lookup_store_field.
        apply negb_true_iff in Hs. by rewrite Hs.
      - apply bind_Ok_inv in Hstep as (v & w2 & _ & Hret).
        inversion Hret; subst. rewrite lookup_store_field.
        apply negb_true_iff in Hs. by rewrite Hs. }
    rewrite Hh1.
    destruct (existsb (is_plain_named k) specs), (is_plain_named k s),
      (negb (String.eqb (request_get req k) "")); done.
Qed.

(** Plain specs never raise. *)
Lemma extract_fields_plain_Ok req specs :
  forallb (fun s => match s with Plain _ => true | _ => false end) specs
  = true ->
  forall h w, exists h', extract_fields req h specs w = Ok h' w.
Proof.
  induction specs as [|s specs IH]; simpl; intros Hall h w; [by eexists|].
  apply andb_true_iff in Hall as [Hs Hall]. destruct s; try done.
  rewrite bind_run. simpl. apply IH, Hall.
Qed.

Lemma get_datetime_run ext raw w :
  match get_datetime ext (VStr raw) w with
  | Ok v _ => well_formed_time ext raw /\ exists d, v = VDate d
  | Raise e _ => e = ValueError /\ ~ well_formed_time ext raw
  end.
Proof.
  unfold get_datetime, well_formed_time. simpl.
  destruct (String.eqb_spec raw "") as [->|Hne]; simpl.
  - split; eauto.
  - destruct (strptime ext raw) as [d|] eqn:Hd; simpl.
    + split; eauto.
    + split; [done|]. intros [?|[? ?]]; congruence.
Qed.

(** The extraction for a comment: it raises only on a malformed time, and
    the four required entries hold the raw request values, when sent. *)
Lemma extract_comment_fields ext req w :
  match get_hash_from_request req (comment_fields ext) w with
  | Raise e w' =>
      e = ValueError /\ ~ well_formed_time ext (request_get req "published")
  | Ok h w' =>
      well_formed_time ext (request_get req "published")
      /\ forall k, k ∈ comment_required ->
           h !! k = if String.eqb (request_get req k) "" then None
                    else Some (VStr (request_get req k))
  end.
Proof.
  destruct (get_hash_from_request req (comment_fields ext) w)
    as [h w'|e w'] eqn:Hrun.
  - split.
    + unfold get_hash_from_request in Hrun.
      change (comment_fields ext)
        with ([Plain "name"; Plain "email"; Plain "title"; Plain "body";
               Plain "thread"]
              ++ [Transformed "published" (get_datetime ext)]) in Hrun.
      rewrite extract_fields_app in Hrun.
      apply bind_Ok_inv in Hrun as (h1 & w1 & _ & Hlast).
      simpl in Hlast. apply bind_Ok_inv in Hlast as (h2 & w2 & Hlast & _).
      apply bind_Ok_inv in Hlast as (v & w3 & Hdt & _).
      pose proof (get_datetime_run ext (request_get req "published") w1) as H.
      rewrite Hdt in H. tauto.
    + intros k Hk.
      rewrite (extract_fields_plain_lookup req k (comment_fields ext)
                 ltac:(repeat (apply elem_of_cons in Hk as [->|Hk]; [done|]);
                       by apply elem_of_nil in Hk) _ _ _ _ Hrun).
      rewrite lookup_empty.
      repeat (apply elem_of_cons in Hk as [->|Hk];
              [simpl; by destruct (String.eqb _ "")|]).
      by apply elem_of_nil in Hk.
  - unfold get_hash_from_request in Hrun.
    change (comment_fields ext)
      with ([Plain "name"; Plain "email"; Plain "title"; Plain "body";
             Plain "thread"]
            ++ [Transformed "published" (get_datetime ext)]) in Hrun.
    rewrite extract_fields_app, bind_run in Hrun.
    destruct (extract_fields_plain_Ok req
                [Plain "name"; Plain "email"; Plain "title"; Plain "body";
                 Plain "thread"] eq_refl ∅ w) as [h1 Hh1].
    rewrite Hh1 in Hrun. simpl in Hrun. rewrite !bind_run in Hrun.
    pose proof (get_datetime_run ext (request_get req "published") w) as H.
    destruct (get_datetime ext (VStr (request_get req "published")) w)
      as [v w2|e2 w2]; [done|].
    inversion Hrun; subst. done.
Qed.

(** ** Entities *)

Lemma fill_optional_properties_spec obj h :
  e_kind (fill_optional_properties obj h) = e_kind obj
  /\ e_key (fill_optional_properties obj h) = e_key obj
  /\ forall k v, e_attrs obj !! k = Some v ->
       e_attrs (fill_optional_properties obj h) !! k = Some v.
Proof.
  unfold fill_optional_properties.
  apply (map_fold_weak_ind
           (fun r (_ : gmap string value) =>
              e_kind r = e_kind obj /\ e_key r = e_key obj
              /\ forall k v, e_attrs obj !! k = Some v ->
                             e_attrs r !! k = Some v)); [done|].
  intros i x m r _ (Hkind & Hkey & Hattrs).
  destruct (truthy x && negb (bool_decide (is_Some (e_attrs r !! i))))
    eqn:Hcond; [|done].
  repeat split; [done..|]. intros k v Hk. simpl.
  apply andb_true_iff in Hcond as [_ Hfree].
  apply negb_true_iff, bool_decide_eq_false in Hfree.
  destruct (decide (i = k)) as [->|Hne].
  - destruct Hfree. rewrite (Hattrs _ _ Hk). eauto.
  - rewrite lookup_insert_ne by done. auto.
Qed.

Lemma attr_fill_optional_properties obj h k v :
  e_attrs obj !! k = Some v -> attr (fill_optional_properties obj h) k = v.
Proof.
  intros Hk. unfold attr.
  by rewrite (proj2 (proj2 (fill_optional_properties_spec obj h)) k v Hk).
Qed.

Lemma put_run e w :
  exists key w1,
    put e w = Ok key w1
    /\ trace w1 = trace w ++ [EPut (stored_as e w)]
    /\ cache_flushes w1 = cache_flushes w.
Proof.
  unfold put, stored_as. destruct (e_key e); eauto.
Qed.



(** ** The comment pipeline *)

Lemma bump_num_comments_run a w :
  bump_num_comments a w =
  if is_counter (attr a "num_comments") || negb (truthy (attr a "num_comments"))
  then Ok (counted a) w else Raise TypeError w.
Proof.
  unfold bump_num_comments, counted.
  destruct (attr a "num_comments") as [|s|n|d|l|k id|l]; simpl; try done.
  - by destruct (String.eqb s "").
  - by destruct (n =? 0).
  - by destruct l.
  - by destruct l.
Qed.

Ltac quiet_specs :=
  repeat (apply List.Forall_cons; [simpl; try done; intros; auto with quiet|]);
  apply List.Forall_nil.

Lemma quiet_comment_fields ext : Forall quiet_spec (comment_fields ext).
Proof. unfold comment_fields. quiet_specs. Qed.

Lemma quiet_article_fields ext : Forall quiet_spec (article_fields ext).
Proof. unfold article_fields. quiet_specs. Qed.

Ltac in_required := unfold comment_required; repeat constructor.

Lemma item_run (h : gmap string value) k w :
  item h k w = match h !! k with
               | Some v => Ok v w
               | None => Raise (KeyError k) w
               end.
Proof. unfold item. by destruct (h !! k). Qed.

(** Every run of the comment pipeline on an existing article. *)
Lemma process_comment_submission_run ext req a w :
  if counter_ok a then
    let parent := stored_as (counted a) w in
    match process_comment_submission ext req (Some a) w with
    | Raise e w' =>
        trace w' = trace w ++ [EPut parent]
        /\ cache_flushes w' = cache_flushes w
        /\ ((e = ValueError
             /\ ~ well_formed_time ext (request_get req "published"))
            \/ (well_formed_time ext (request_get req "published")
                /\ exists k, e = KeyError k /\ k ∈ comment_required
                             /\ request_get req k = ""))
    | Ok _ w' =>
        well_formed_time ext (request_get req "published")
        /\ (forall k, k ∈ comment_required -> request_get req k <> "")
        /\ exists c,
             trace w' = trace w ++ [EPut parent; EPut c;
                                    ESuccessfulPost (attr c "permalink")
                                      "comment";
                                    EInvalidateCache]
             /\ e_kind c = Comment
             /\ attr c "permalink"
                = VStr (pretty (py_hash ext (VStr (request_get req "name"))
                                  (VStr (request_get req "email"))
                                  (VStr (request_get req "body"))))
             /\ cache_flushes w' = S (cache_flushes w)
    end
  else process_comment_submission ext req (Some a) w = Raise TypeError w.
Proof.
  unfold process_comment_submission.
  rewrite bind_run, bump_num_comments_run. fold (counter_ok a).
  destruct (counter_ok a); [|done]. simpl.
  destruct (put_run (counted a) w) as (key & w1 & Hput & Htrace & Hcache).
  rewrite bind_run, Hput, bind_run.
  pose proof (extract_comment_fields ext req w1) as Hext.
  pose proof (quiet_extract_fields req (comment_fields ext)
                (quiet_comment_fields ext) ∅ w1) as (Hq1 & _ & _ & Hq2).
  fold (get_hash_from_request req (comment_fields ext)) in Hq1, Hq2.
  destruct (get_hash_from_request req (comment_fields ext) w1)
    as [h w2|e w2]; simpl in Hq1, Hq2.
  2:{ rewrite Hq1, Hq2. tauto. }
  destruct Hext as [Htime Hlook].
  assert (Hname := Hlook "name" ltac:(in_required)).
  assert (Hemail := Hlook "email" ltac:(in_required)).
  assert (Hbody := Hlook "body" ltac:(in_required)).
  assert (Hthread := Hlook "thread" ltac:(in_required)).
  assert (Hmiss : forall k, k ∈ comment_required -> request_get req k = "" ->
            trace w2 = trace w ++ [EPut (stored_as (counted a) w)]
            /\ cache_flushes w2 = cache_flushes w
            /\ (KeyError k = ValueError
                /\ ~ well_formed_time ext (request_get req "published")
                \/ well_formed_time ext (request_get req "published")
                   /\ exists k', KeyError k = KeyError k'
                        /\ k' ∈ comment_required /\ request_get req k' = "")).
  { intros k Hk Hempty. rewrite Hq1, Hq2. repeat split; [done..|].
    right. eauto. }
  rewrite bind_run, item_run, Hname.
  destruct (String.eqb_spec (request_get req "name") "") as [Hn|Hn].
  { cbv beta iota.
    apply (Hmiss "name"); [in_required | done]. }
  cbv beta iota.
  rewrite bind_run, item_run, Hemail.
  destruct (String.eqb_spec (request_get req "email") "") as [He|He].
  { cbv beta iota.
    apply (Hmiss "email"); [in_required | done]. }
  cbv beta iota.
  rewrite bind_run, item_run, Hbody.
  destruct (String.eqb_spec (request_get req "body") "") as [Hb|Hb].
  { cbv beta iota.
    apply (Hmiss "body"); [in_required | done]. }
  cbv beta iota.
  rewrite bind_run, item_run, Hbody.
  destruct (String.eqb_spec (request_get req "body") "") as [|_]; [done|].
  cbv beta iota.
  rewrite bind_run, item_run, Hthread.
  destruct (String.eqb_spec (request_get req "thread") "") as [Ht|Ht].
  { cbv beta iota.
    apply (Hmiss "thread"); [in_required | done]. }
  cbv beta iota.
  match goal with
  | |- context [fill_optional_properties ?obj h] =>
      set (comment := fill_optional_properties obj h);
      pose proof (fill_optional_properties_spec obj h) as (Hkind & Hkey & _);
      pose proof (attr_fill_optional_properties obj h "permalink" _
                    ltac:(simpl; apply lookup_insert_eq)) as Hperm;
      fold comment in Hkind, Hkey, Hperm
  end.
  simpl in Hkind, Hkey.
  rewrite bind_run. unfold put at 1. rewrite Hkey, Hkind. simpl.
  split; [done|]. split.
  { intros k Hk. unfold comment_required in Hk.
    repeat (apply elem_of_cons in Hk as [->|Hk]; [done|]).
    by apply elem_of_nil in Hk. }
  exists (mk_entity Comment (Some (next_id w2)) (e_attrs comment)).
  split; [|split; [|split]].
  - rewrite Hq1, Htrace, <- !app_assoc. reflexivity.
  - done.
  - done.
  - by rewrite Hq2, Hcache.
Qed.

(** ** The article pipeline *)

Lemma item_Ok_inv (h : gmap string value) k w v w' :
  item h k w = Ok v w' -> h !! k = Some v /\ w' = w.
Proof. rewrite item_run. destruct (h !! k); [|done]. by inversion 1. Qed.

(** A successful article submission: what it wrote, in which order, and how
    the permalink of the new article came about. *)
Lemma process_article_submission_Ok ext req ty w w' :
  process_article_submission ext req ty w = Ok tt w' ->
  exists a f title published w0 w0',
    trace w' = trace w ++ [EPut a; ESuccessfulPost (attr a "permalink") ty;
                           EInvalidateCache]
    /\ cache_flushes w' = S (cache_flushes w)
    /\ e_kind a = Article
    /\ attr a "article_type" = VStr ty
    /\ permalink_funcs ty w = Ok f w
    /\ attr a "title" = title
    /\ attr a "published" = published
    /\ f [title; published] w0 = Ok (attr a "permalink") w0'.
Proof.
  unfold process_article_submission. intros Hrun.
  apply bind_Ok_inv in Hrun as (f & w1 & Hf & Hrun).
  assert (w1 = w /\ forall args, quiet (f args)) as [-> Hquiet].
  { unfold permalink_funcs in Hf.
    repeat destruct (String.eqb _ _); inversion Hf; subst;
      split; auto with quiet. }
  apply bind_Ok_inv in Hrun as (h & w2 & Hext & Hrun).
  unfold get_hash_from_request in Hext. rewrite extract_fields_app in Hext.
  apply bind_Ok_inv in Hext as (h1 & w3 & Hfields & Hlast).
  pose proof (quiet_extract_fields req _ (quiet_article_fields ext) ∅ w)
    as (Hq1 & _ & _ & Hq2).
  rewrite Hfields in Hq1, Hq2. simpl in Hq1, Hq2.
  simpl in Hlast. apply bind_Ok_inv in Hlast as (h2 & w4 & Hlast & Hret).
  inversion Hret; subst h2 w4; clear Hret.
  apply bind_Ok_inv in Hlast as (v & w4 & Hperm & Hret).
  inversion Hret; subst h w4; clear Hret.
  assert (Hnone : h1 !! "permalink" = None).
  { rewrite (extract_fields_plain_lookup req "permalink" (article_fields ext)
               eq_refl _ _ _ _ Hfields). by rewrite lookup_empty. }
  apply bind_Ok_inv in Hrun as (permalink & ? & [Hp ->]%item_Ok_inv & Hrun).
  apply bind_Ok_inv in Hrun as (title & ? & [Ht ->]%item_Ok_inv & Hrun).
  apply bind_Ok_inv in Hrun as (body & ? & [Hb ->]%item_Ok_inv & Hrun).
  apply bind_Ok_inv in Hrun as (html & ? & [Hh ->]%item_Ok_inv & Hrun).
  apply bind_Ok_inv in Hrun as (published & ? & [Hpub ->]%item_Ok_inv & Hrun).
  apply bind_Ok_inv in Hrun as (updated & ? & [Hu ->]%item_Ok_inv & Hrun).
  rewrite lookup_store_field in Hp, Ht, Hpub. simpl in Hp, Ht, Hpub.
  destruct (truthy v); [|congruence]. inversion Hp; subst v; clear Hp.
  rewrite Ht, Hpub in Hperm. simpl in Hperm.
  destruct (Hquiet [title; published] w3) as (Hq3 & _ & _ & Hq4).
  rewrite Hperm in Hq3, Hq4. simpl in Hq3, Hq4.
  match type of Hrun with
  | context [fill_optional_properties ?obj ?h] =>
      set (article := fill_optional_properties obj h) in *;
      pose proof (fill_optional_properties_spec obj h) as (Hkind & Hkey & _);
      pose proof (fun k v => attr_fill_optional_properties obj h k v) as Hattr;
      fold article in Hkind, Hkey, Hattr
  end.
  simpl in Hkind, Hkey.
  apply bind_Ok_inv in Hrun as (key & w5 & Hput & Hrun).
  unfold put in Hput. simpl in Hput. rewrite Hkey, Hkind in Hput.
  inversion Hput; subst key w5; clear Hput.
  apply bind_Ok_inv in Hrun as ([] & w5 & Hpost & Hinv).
  inversion Hpost; subst w5; clear Hpost.
  inversion Hinv; subst w'; clear Hinv. simpl.
  set (final := set_associated_data article
                  [("relevant_links", request_get req "relevant_links");
                   ("amazon_items", request_get req "amazon_items")]).
  exists (mk_entity Article (Some (next_id w2)) (e_attrs final)),
    f, title, published, w3, w2.
  assert (Hsame : forall k,
            attr (mk_entity Article (Some (next_id w2)) (e_attrs final)) k
            = attr final k) by done.
  assert (Hget : forall k v, k <> "associated_data" ->
            (list_to_map
               [("permalink", permalink); ("article_type", VStr ty);
                ("title", title); ("body", body); ("html", html);
                ("published", published); ("updated", updated);
                ("format", VStr "html")] : gmap string value) !! k = Some v ->
            attr final k = v).
  { intros k x Hne Hk. unfold attr, final, set_associated_data, set_attr.
    simpl. rewrite lookup_insert_ne by done. apply (Hattr k x Hk). }
  rewrite !Hsame.
  rewrite (Hget "permalink" permalink), (Hget "article_type" (VStr ty)),
    (Hget "title" title), (Hget "published" published)
    by (done || by simplify_map_eq).
  rewrite Hq3, Hq1, <- !app_assoc. repeat split; try done.
  by rewrite Hq4, Hq2.
Qed.

(** * Properties of the friendly slug *)

Module SlugFacts.
Import Str.

Lemma slug_char_not_space c : slug_char c = true -> is_space c = false.
Proof.
  destruct c as [[] [] [] [] [] [] [] []]; vm_compute; congruence.
Qed.

Lemma is_hyphen_slug_char c : is_hyphen c = true -> slug_char c = true.
Proof. unfold slug_char. intros ->. apply orb_true_r. Qed.

Lemma all_chars_impl (p q : ascii -> bool) s :
  (forall c, p c = true -> q c = true) ->
  all_chars p s = true -> all_chars q s = true.
Proof.
  intros Hpq. induction s as [|c s IH]; simpl; [done|].
  rewrite !andb_true_iff. intros [Hc Hs]. auto.
Qed.

Lemma all_chars_delete p s :
  all_chars (fun c => negb (p c)) (delete_chars p s) = true.
Proof.
  induction s as [|c s IH]; simpl; [done|].
  destruct (p c) eqn:Hc; simpl; [done|]. by rewrite Hc, IH.
Qed.

Lemma all_chars_sub_runs_from p q rep b s :
  all_chars q rep = true ->
  all_chars q s = true ->
  all_chars q (sub_runs_from p rep b s) = true.
Proof.
  intros Hrep. revert b. induction s as [|c s IH]; intros b; simpl; [done|].
  rewrite andb_true_iff. intros [Hc Hs].
  destruct (p c).
  - destruct b; [by apply IH|].
    assert (Happ : forall r t, all_chars q r = true -> all_chars q t = true ->
                              all_chars q (String.append r t) = true).
    { clear. induction r as [|x r IHr]; simpl; [done|]. intros t.
      rewrite !andb_true_iff. intros [Hx Hr] Ht. auto. }
    apply Happ; [done | by apply IH].
  - simpl. rewrite Hc. by apply IH.
Qed.

(** Collapsing hyphen runs leaves no run, and what follows a hyphen that was
    already seen does not start with one. *)
Lemma collapse_no_run b s :
  no_hyphen_run (sub_runs_from is_hyphen "-" b s) = true
  /\ (b = true ->
      starts_with_hyphen (sub_runs_from is_hyphen "-" b s) = false).
Proof.
  revert b. induction s as [|c s IH]; intros b; simpl; [done|].
  destruct (is_hyphen c) eqn:Hc.
  - destruct b; [apply IH|]. split; [|done].
    destruct (IH true) as [Hrun Hstart]. specialize (Hstart eq_refl).
    simpl. destruct (sub_runs_from is_hyphen "-" true s) as [|c' r]; [done|].
    simpl in Hstart. 
    change (no_hyphen_run (String "-" (String c' r)) = true).
    change (negb (is_hyphen "-" && is_hyphen c') && no_hyphen_run (String c' r) = true).
    by rewrite Hstart, andb_false_r.
  - split; [|simpl; by rewrite Hc].
    destruct (IH false) as [Hrun _]. simpl.
    destruct (sub_runs_from is_hyphen "-" false s) as [|c' r]; [done|].
    change (negb (is_hyphen c && is_hyphen c') && no_hyphen_run (String c' r) = true).
    by rewrite Hc.
Qed.

Lemma no_hyphen_run_tail c s :
  no_hyphen_run (String c s) = true -> no_hyphen_run s = true.
Proof.
  simpl. destruct s as [|c' s]; [done|]. rewrite andb_true_iff. tauto.
Qed.

Lemma no_hyphen_run_substring s s1 s2 :
  no_hyphen_run s = true -> s <> s1 +:+ "--" +:+ s2.
Proof.
  revert s. induction s1 as [|c s1 IH]; intros s Hrun Heq; subst s.
  - simpl in Hrun. discriminate.
  - apply no_hyphen_run_tail in Hrun. by eapply IH.
Qed.

(** On a string of slug characters without hyphen runs every step of the
    slug function is the identity. *)
Lemma lstrip_id s :
  all_chars (fun c => negb (is_space c)) s = true -> lstrip s = s.
Proof.
  destruct s as [|c s]; simpl; [done|].
  rewrite andb_true_iff, negb_true_iff. by intros [-> _].
Qed.

Lemma rstrip_id s :
  all_chars (fun c => negb (is_space c)) s = true -> rstrip s = s.
Proof.
  induction s as [|c s IH]; simpl; [done|].
  rewrite andb_true_iff, negb_true_iff. intros [Hc Hs].
  rewrite IH by done. rewrite Hc. by destruct s.
Qed.

Lemma sub_runs_from_id p rep b s :
  all_chars (fun c => negb (p c)) s = true -> sub_runs_from p rep b s = s.
Proof.
  revert b. induction s as [|c s IH]; intros b; simpl; [done|].
  rewrite andb_true_iff, negb_true_iff. intros [-> Hs]. by rewrite IH.
Qed.

Lemma delete_chars_id p s :
  all_chars (fun c => negb (p c)) s = true -> delete_chars p s = s.
Proof.
  induction s as [|c s IH]; simpl; [done|].
  rewrite andb_true_iff, negb_true_iff. intros [-> Hs]. by rewrite IH.
Qed.

Lemma collapse_id b s :
  no_hyphen_run s = true ->
  (b = true -> starts_with_hyphen s = false) ->
  sub_runs_from is_hyphen "-" b s = s.
Proof.
  revert b. induction s as [|c s IH]; intros b Hrun Hstart; simpl; [done|].
  pose proof (no_hyphen_run_tail _ _ Hrun) as Htail.
  destruct (is_hyphen c) eqn:Hc.
  - destruct b; [by specialize (Hstart eq_refl); simpl in Hstart; congruence|].
    rewrite IH.
    + apply Ascii.eqb_eq in Hc. subst c. reflexivity.
    + done.
    + intros _. destruct s as [|c' s]; [done|].
      change (negb (is_hyphen c && is_hyphen c')
              && no_hyphen_run (String c' s) = true) in Hrun.
      rewrite Hc in Hrun. simpl starts_with_hyphen.
      destruct (is_hyphen c'); [discriminate | done].
  - f_equal. apply IH; [done|]. discriminate.
Qed.

Lemma slug_chars x : all_chars slug_char (get_friendly_url x) = true.
Proof.
  unfold get_friendly_url, sub_runs.
  apply all_chars_sub_runs_from; [done|].
  eapply all_chars_impl; [|apply all_chars_delete].
  intros c. unfold not_word_or_hyphen, slug_char. by rewrite negb_involutive.
Qed.

Lemma slug_no_space x :
  all_chars (fun c => negb (is_space c)) (get_friendly_url x) = true.
Proof.
  eapply all_chars_impl; [|apply slug_chars].
  intros c Hc. by rewrite (slug_char_not_space c Hc).
Qed.

Lemma slug_no_hyphen_run x : no_hyphen_run (get_friendly_url x) = true.
Proof. unfold get_friendly_url, sub_runs. apply collapse_no_run. Qed.

Lemma slug_fixed y :
  all_chars slug_char y = true -> no_hyphen_run y = true ->
  get_friendly_url y = y.
Proof.
  intros Hchars Hrun.
  assert (Hsp : all_chars (fun c => negb (is_space c)) y = true).
  { eapply all_chars_impl; [|exact Hchars].
    intros c Hc. by rewrite (slug_char_not_space c Hc). }
  unfold get_friendly_url, strip, sub_runs.
  rewrite lstrip_id, rstrip_id by done.
  rewrite (sub_runs_from_id is_space) by done.
  rewrite delete_chars_id.
  - apply collapse_id; [done | discriminate].
  - eapply all_chars_impl; [|exact Hchars].
    intros c. unfold not_word_or_hyphen, slug_char. by rewrite negb_involutive.
Qed.

End SlugFacts.

(** C5.  The friendly slug is idempotent, and for every title the slug holds
    no whitespace, only word characters and hyphens, and no two hyphens in a
    row. *)
Theorem get_friendly_url_idempotent_clean (x : string) :
  get_friendly_url (get_friendly_url x) = get_friendly_url x
  /\ Str.all_chars (fun c => negb (Str.is_space c)) (get_friendly_url x) = true
  /\ Str.all_chars (fun c => Str.is_word c || Str.is_hyphen c)
       (get_friendly_url x) = true
  /\ (forall s1 s2, get_friendly_url x <> s1 +:+ "--" +:+ s2).
Proof.
  repeat split.
  - apply SlugFacts.slug_fixed;
      [apply SlugFacts.slug_chars | apply SlugFacts.slug_no_hyphen_run].
  - apply SlugFacts.slug_no_space.
  - apply SlugFacts.slug_chars.
  - intros s1 s2. apply SlugFacts.no_hyphen_run_substring,
      SlugFacts.slug_no_hyphen_run.
Qed.

(** * The page handler *)

Lemma find_alias_Some path aliases target :
  find_alias path aliases = Some target ->
  exists alias, (alias, target) ∈ aliases /\ lower path = lower alias.
Proof.
  induction aliases as [|[a t] rest IH]; simpl; [done|].
  destruct (String.eqb_spec (lower path) (lower a)) as [Heq|_].
  - intros [= ->]. exists a. split; [constructor | done].
  - intros (alias & Hin & Hl)%IH. exists alias. split; [by constructor | done].
Qed.

Lemma find_alias_None path aliases :
  (forall alias target, (alias, target) ∈ aliases -> lower path <> lower alias) ->
  find_alias path aliases = None.
Proof.
  induction aliases as [|[a t] rest IH]; simpl; intros Hno; [done|].
  destruct (String.eqb_spec (lower path) (lower a)) as [Heq|_].
  - destruct (Hno a t); [constructor | done].
  - apply IH. intros alias target Hin. apply (Hno alias target). by constructor.
Qed.

Lemma find_alias_is_Some path aliases alias target :
  (alias, target) ∈ aliases -> lower path = lower alias ->
  is_Some (find_alias path aliases).
Proof.
  intros Hin Hl. destruct (find_alias path aliases) eqn:Hfind; [eauto|].
  exfalso. revert Hfind. induction aliases as [|[a t] rest IH]; simpl.
  - by apply elem_of_nil in Hin.
  - destruct (String.eqb_spec (lower path) (lower a)) as [|Hne]; [done|].
    apply elem_of_cons in Hin as [[= <- <-]|Hin]; [done | by apply IH].
Qed.

(** C1.  Lookup precedence of [PageHandler.get]: a case-insensitive match in
    the legacy alias table gives the redirect, whatever the datastore holds,
    so also when the path is a live permalink; otherwise the article found
    through the legacy id mapping is shown; otherwise the article whose
    permalink is the path; otherwise the request is redirected to
    [/404.html]. *)
Theorem PageHandler_get_precedence (ext : externals) (req : request)
    (path : string) (w : world) :
  let show a :=
    (comments ← comment_set a;
     two ← use_two_columns ext a comments;
     render (mk_render_context two (attr a "title") a comments)) w in
  let legacy :=
    match legacy_id_mapping ext with
    | Some mapping =>
        match regex mapping path with
        | Some group1 => head (run_query (query mapping group1) (datastore w))
        | None => None
        end
    | None => None
    end in
  let direct := head (run_query (by_permalink path) (datastore w)) in
  (forall alias target,
      (alias, target) ∈ redirects ext -> lower path = lower alias ->
      exists alias' target',
        (alias', target') ∈ redirects ext /\ lower path = lower alias'
        /\ PageHandler_get ext req path w = redirect ("/" +:+ target') w)
  /\ ((forall alias target,
          (alias, target) ∈ redirects ext -> lower path <> lower alias) ->
      PageHandler_get ext req path w =
      match legacy with
      | Some a => show a
      | None =>
          match direct with
          | Some a => show a
          | None => redirect "/404.html" w
          end
      end).
Proof.
  intros show legacy direct. split.
  - intros alias target Hin Hl.
    destruct (find_alias_is_Some path _ _ _ Hin Hl) as [t Ht].
    destruct (find_alias_Some _ _ _ Ht) as (alias' & Hin' & Hl').
    exists alias', t. repeat split; [done..|].
    unfold PageHandler_get. by rewrite Ht.
  - intros Hno. unfold PageHandler_get.
    rewrite (find_alias_None _ _ Hno), bind_run.
    unfold legacy_lookup, legacy, direct, show.
    destruct (legacy_id_mapping ext) as [mapping|]; simpl.
    + destruct (regex mapping path) as [group1|]; simpl.
      * unfold get at 1.
        destruct (head (run_query (query mapping group1) (datastore w)));
          simpl; [done|].
        rewrite bind_run. unfold get.
        by destruct (head (run_query (by_permalink path) (datastore w))).
      * rewrite bind_run. unfold get.
        by destruct (head (run_query (by_permalink path) (datastore w))).
    + rewrite bind_run. unfold get.
      by destruct (head (run_query (by_permalink path) (datastore w))).
Qed.

Lemma PageHandler_get_precedence_witness :
  ("About-Me", "about") ∈ redirects sample_ext
  /\ lower "about-me" = lower "About-Me"
  /\ head (run_query (by_permalink "about-me") (datastore sample_world))
     = Some about_page
  /\ exists alias' target',
       (alias', target') ∈ redirects sample_ext
       /\ lower "about-me" = lower alias'
       /\ PageHandler_get sample_ext sample_article_request "about-me"
            sample_world
          = redirect ("/" +:+ target') sample_world.
Proof.
  split; [constructor|]. split; [reflexivity|]. split; [vm_compute; reflexivity|].
  apply (proj1 (PageHandler_get_precedence sample_ext sample_article_request
                  "about-me" sample_world) "About-Me" "about").
  - constructor.
  - reflexivity.
Defined.

(** * The month handler *)

(** In a month of 31 days the handler lists the articles published from the
    first to the last second of the month, newest first. *)
Lemma MonthHandler_get_long_month (req : request) (year month : string)
    (y m : Z) (w : world) :
  atoi year = inr y -> atoi month = inr m ->
  1 <= y <= 9999 -> 1 <= m <= 12 -> days_in_month y m = 31 ->
  MonthHandler_get req year month w =
  render_query "articles"
    (published_between (mk_datetime y m 1 0 0 0 0)
       (mk_datetime y m 31 23 59 59 0))
    [("title", "Articles for " +:+ month +:+ "/" +:+ year);
     ("year", year); ("month", month)] w.
Proof.
  intros Hy Hm Hyr Hmr Hdays. unfold MonthHandler_get.
  rewrite Hy, Hm. cbv [lift mbind M_bind mret M_ret].
  unfold datetime_new. rewrite Hdays.
  repeat match goal with
  | |- context [?a <=? ?b] =>
      first [ rewrite (proj2 (Z.leb_le a b)) by lia ]
  end.
  reflexivity.
Qed.

(** In a month of fewer days the construction of the end date raises. *)
Lemma MonthHandler_get_short_month (req : request) (year month : string)
    (y m : Z) (w : world) :
  atoi year = inr y -> atoi month = inr m ->
  1 <= y <= 9999 -> 1 <= m <= 12 -> days_in_month y m < 31 ->
  MonthHandler_get req year month w = Raise ValueError w.
Proof.
  intros Hy Hm Hyr Hmr Hdays. unfold MonthHandler_get.
  rewrite Hy, Hm. cbv [lift mbind M_bind mret M_ret].
  unfold datetime_new.
  assert (Hd : 1 <= days_in_month y m).
  { unfold days_in_month. repeat case_match; lia. }
  rewrite (proj2 (Z.leb_gt 31 (days_in_month y m))) by lia.
  repeat match goal with
  | |- context [?a <=? ?b] =>
      first [ rewrite (proj2 (Z.leb_le a b)) by lia ]
  end.
  reflexivity.
Qed.

(** C2.  A GET on the month handler for February 2024 does not complete: the
    end date [datetime(2024, 2, 31, 23, 59, 59)] raises [ValueError] and
    nothing is rendered. *)
Theorem MonthHandler_get_february_raises (req : request) (w : world) :
  MonthHandler_get req "2024" "2" w = Raise ValueError w.
Proof. reflexivity. Qed.

(** * The article handler *)

(** C3.  A GET on the article handler for a permalink without an article
    raises [AttributeError] and sends nothing, where the page handler
    redirects to the not-found page. *)
Theorem ArticleHandler_get_missing_raises (ext : externals) (req : request)
    (year month perm_stem : string) (w : world) :
  head (run_query
          (by_permalink (year +:+ "/" +:+ month +:+ "/" +:+ perm_stem))
          (datastore w)) = None ->
  ArticleHandler_get ext req year month perm_stem w = Raise AttributeError w.
Proof.
  intros Hnone. unfold ArticleHandler_get. rewrite bind_run.
  unfold get at 1. by rewrite Hnone.
Qed.

Lemma ArticleHandler_get_missing_raises_witness :
  head (run_query (by_permalink ("2024" +:+ "/" +:+ "3" +:+ "/" +:+ "nope"))
          (datastore sample_world)) = None
  /\ ArticleHandler_get sample_ext sample_article_request "2024" "3" "nope"
       sample_world = Raise AttributeError sample_world.
Proof.
  split; [vm_compute; reflexivity|].
  apply (ArticleHandler_get_missing_raises sample_ext sample_article_request
           "2024" "3" "nope" sample_world).
  vm_compute; reflexivity.
Defined.

(** * Comment submission *)



(** C7.  Two comment submissions that carry the same name, email and body
    and that both go through persist their comments under the same key, the
    hash of that triple, whatever their threads, their timestamps, their
    parent articles and the state of the blog. *)
Theorem comment_key_from_triple (ext : externals) (req1 req2 : request)
    (a1 a2 : entity) (w1 w2 w1' w2' : world) :
  request_get req1 "name" = request_get req2 "name" ->
  request_get req1 "email" = request_get req2 "email" ->
  request_get req1 "body" = request_get req2 "body" ->
  process_comment_submission ext req1 (Some a1) w1 = Ok tt w1' ->
  process_comment_submission ext req2 (Some a2) w2 = Ok tt w2' ->
  exists key p1 c1 p2 c2,
    key = VStr (pretty (py_hash ext (VStr (request_get req1 "name"))
                          (VStr (request_get req1 "email"))
                          (VStr (request_get req1 "body"))))
    /\ trace w1' = trace w1 ++ [EPut p1; EPut c1;
                                ESuccessfulPost key "comment";
                                EInvalidateCache]
    /\ trace w2' = trace w2 ++ [EPut p2; EPut c2;
                                ESuccessfulPost key "comment";
                                EInvalidateCache]
    /\ attr c1 "permalink" = key
    /\ attr c2 "permalink" = key.
Proof.
  intros Hname Hemail Hbody Hrun1 Hrun2.
  pose proof (process_comment_submission_run ext req1 a1 w1) as H1.
  pose proof (process_comment_submission_run ext req2 a2 w2) as H2.
  rewrite Hrun1 in H1. rewrite Hrun2 in H2.
  destruct (counter_ok a1); [|done]. destruct (counter_ok a2); [|done].
  cbv zeta in H1, H2.
  destruct H1 as (_ & _ & c1 & Ht1 & _ & Hk1 & _).
  destruct H2 as (_ & _ & c2 & Ht2 & _ & Hk2 & _).
  rewrite <- Hname, <- Hemail, <- Hbody in Hk2.
  eexists _, _, c1, _, c2. split; [reflexivity|].
  rewrite <- Hk1 at 1. rewrite <- Hk2 at 1. done.
Qed.

Lemma comment_key_from_triple_witness :
  exists key p1 c1 p2 c2,
    key = VStr (pretty (py_hash sample_ext
                          (VStr (request_get sample_comment_request "name"))
                          (VStr (request_get sample_comment_request "email"))
                          (VStr (request_get sample_comment_request "body"))))
    /\ trace (final_world
                (process_comment_submission sample_ext sample_comment_request
                   (Some about_page) sample_world))
       = trace sample_world ++ [EPut p1; EPut c1;
                                ESuccessfulPost key "comment";
                                EInvalidateCache]
    /\ trace (final_world
                (process_comment_submission sample_ext later_comment_request
                   (Some about_page) (empty_world sample_time)))
       = trace (empty_world sample_time)
         ++ [EPut p2; EPut c2; ESuccessfulPost key "comment";
             EInvalidateCache]
    /\ attr c1 "permalink" = key
    /\ attr c2 "permalink" = key.
Proof.
  apply (comment_key_from_triple sample_ext sample_comment_request
           later_comment_request about_page about_page sample_world
           (empty_world sample_time)); vm_compute; reflexivity.
Defined.



(** * Article submission *)

(** C6.  The article a successful POST on the month handler creates is of
    type blog and its permalink is [str(published.year)], a slash,
    [str(published.month)], a slash and the friendly slug of its title. *)
Theorem blog_permalink_shape (ext : externals) (req : request)
    (year month : string) (w w' : world) :
  MonthHandler_post ext req year month w = Ok tt w' ->
  exists a title published,
    trace w' = trace w ++ [EPut a; ESuccessfulPost (attr a "permalink") "blog";
                           EInvalidateCache]
    /\ e_kind a = Article
    /\ attr a "article_type" = VStr "blog"
    /\ attr a "title" = VStr title
    /\ attr a "published" = VDate published
    /\ attr a "permalink"
       = VStr (pretty (dt_year published) +:+ "/"
               +:+ pretty (dt_month published) +:+ "/"
               +:+ get_friendly_url title).
Proof.
  unfold MonthHandler_post. intros Hrun.
  apply process_article_submission_Ok in Hrun
    as (a & f & title & published & w0 & w0' & Htrace & _ & Hkind & Htype
        & Hf & Htitle & Hpub & Hperm).
  assert (f = permalink_blog) as -> by (by inversion Hf).
  unfold permalink_blog in Hperm.
  destruct published as [| | |d| | |]; try done.
  rewrite bind_run in Hperm.
  destruct title as [|t| | | | |]; try done.
  cbv [friendly_url_of mret M_ret] in Hperm. inversion Hperm as [[Hp Hw]].
  by exists a, t, d.
Qed.

Lemma blog_permalink_shape_witness :
  exists a title published,
    trace (final_world
             (MonthHandler_post sample_ext sample_article_request "2024" "03"
                sample_world))
    = trace sample_world
      ++ [EPut a; ESuccessfulPost (attr a "permalink") "blog";
          EInvalidateCache]
    /\ e_kind a = Article
    /\ attr a "article_type" = VStr "blog"
    /\ attr a "title" = VStr title
    /\ attr a "published" = VDate published
    /\ attr a "permalink"
       = VStr (pretty (dt_year published) +:+ "/"
               +:+ pretty (dt_month published) +:+ "/"
               +:+ get_friendly_url title).
Proof.
  apply (blog_permalink_shape sample_ext sample_article_request "2024" "03"
           sample_world).
  vm_compute; reflexivity.
Defined.

(** * Writes, the response and the render cache *)

(** C8, as the claim has it, fails: in this article submission the success
    response comes before the invalidation of the render cache, and nothing
    is sent after it. *)
Lemma respond_after_invalidate_counterexample :
  let w' := final_world
              (MonthHandler_post sample_ext sample_article_request "2024" "03"
                 sample_world) in
  MonthHandler_post sample_ext sample_article_request "2024" "03" sample_world
  = Ok tt w'
  /\ (exists a,
        trace w' = [EPut a; ESuccessfulPost (VStr "2024/3/Hello-World") "blog";
                    EInvalidateCache])
  /\ ~ (exists before after permalink type,
          trace w' = before ++ EInvalidateCache :: after
          /\ ESuccessfulPost permalink type ∈ after).
Proof.
  intros w'.
  assert (Htrace : exists a,
            trace w' = [EPut a;
                        ESuccessfulPost (VStr "2024/3/Hello-World") "blog";
                        EInvalidateCache]).
  { eexists. vm_compute. reflexivity. }
  split; [vm_compute; reflexivity|]. split; [exact Htrace|].
  destruct Htrace as [a ->].
  intros (before & after & permalink & type & Heq & Hin).
  destruct before as [|x1 [|x2 [|x3 before]]]; simplify_eq/=.
  - by apply elem_of_nil in Hin.
  - by destruct before.
Qed.

Lemma take_one_head {A} (l : list A) (x : A) :
  head l = Some x -> take 1 l = [x].
Proof. destruct l; [done|]. by intros [= ->]. Qed.

(** C8, amended.  Every successful write persists first, then sends the
    response, then invalidates the render cache: an article submission and a
    comment submission put the entity, send the success response with its
    permalink and type, and clear the cache; the debug delete deletes the
    entity, writes its permalink, and clears the cache. *)
Theorem persist_respond_invalidate (ext : externals) (req : request) :
  (forall article_type w w',
      process_article_submission ext req article_type w = Ok tt w' ->
      exists a,
        trace w' = trace w ++ [EPut a;
                               ESuccessfulPost (attr a "permalink")
                                 article_type;
                               EInvalidateCache]
        /\ cache_flushes w' = S (cache_flushes w))
  /\ (forall article w w',
        process_comment_submission ext req (Some article) w = Ok tt w' ->
        exists parent comment,
          trace w' = trace w ++ [EPut parent; EPut comment;
                                 ESuccessfulPost (attr comment "permalink")
                                   "comment";
                                 EInvalidateCache]
          /\ e_kind comment = Comment
          /\ cache_flushes w' = S (cache_flushes w))
  /\ (forall q target w w',
        head (run_query q (datastore w)) = Some target ->
        delete_entity q w = Ok tt w' ->
        exists permalink,
          attr target "permalink" = VStr permalink
          /\ trace w' = trace w ++ [EDelete target;
                                    EWrite ("Deleted " +:+ permalink);
                                    EInvalidateCache]
          /\ cache_flushes w' = S (cache_flushes w)).
Proof.
  repeat split.
  - intros ty w w' Hrun.
    apply process_article_submission_Ok in Hrun
      as (a & _ & _ & _ & _ & _ & Htrace & Hcache & _). eauto.
  - intros article w w' Hrun.
    pose proof (process_comment_submission_run ext req article w) as H.
    rewrite Hrun in H. destruct (counter_ok article); [|done].
    destruct H as (_ & _ & c & Htrace & Hkind & _ & Hcache). eauto.
  - intros q target w w' Hhead Hrun. unfold delete_entity in Hrun.
    rewrite bind_run in Hrun. unfold fetch in Hrun.
    rewrite (take_one_head _ _ Hhead) in Hrun.
    rewrite bind_run in Hrun. simpl in Hrun. rewrite bind_run in Hrun.
    unfold deleted_message in Hrun.
    destruct (attr target "permalink") as [|p| | | | |]; try done.
    inversion Hrun; subst w'. simpl. exists p.
    by rewrite <- !app_assoc.
Qed.

Lemma persist_respond_invalidate_witness :
  exists a,
    trace (final_world
             (process_article_submission sample_ext sample_article_request
                "page" sample_world))
    = trace sample_world
      ++ [EPut a; ESuccessfulPost (attr a "permalink") "page";
          EInvalidateCache]
    /\ cache_flushes
         (final_world
            (process_article_submission sample_ext sample_article_request
               "page" sample_world))
       = S (cache_flushes sample_world).
Proof.
  apply (proj1 (persist_respond_invalidate sample_ext sample_article_request)
           "page" sample_world).
  vm_compute; reflexivity.
Defined.

(** * The role gate *)

(** C9.  A request whose caller lacks the required role does not reach the
    body of a gated method: the datastore and the render cache stay as they
    were and the only effect is the unauthorized response. *)
Theorem role_gate_short_circuits (ext : externals) (req : request)
    (path year month perm_stem : string) (w : world) :
  let denied :=
    Ok tt (mk_world (datastore w) (next_id w) (clock w) (ticks w)
             (cache_flushes w) (trace w ++ [EUnauthorized])) in
  ("admin" ∉ roles req ->
     RootHandler_post ext req w = denied
     /\ PageHandler_delete req path w = denied
     /\ ArticleHandler_put req year month perm_stem w = denied
     /\ ArticleHandler_delete req year month perm_stem w = denied)
  /\ ("user" ∉ roles req ->
        PageHandler_post ext req path w = denied
        /\ ArticleHandler_post ext req year month perm_stem w = denied).
Proof.
  intros denied. split; intros Hrole.
  - unfold RootHandler_post, PageHandler_delete, ArticleHandler_put,
      ArticleHandler_delete, role.
    by rewrite !bool_decide_eq_false_2.
  - unfold PageHandler_post, ArticleHandler_post, role.
    by rewrite !bool_decide_eq_false_2.
Qed.

Lemma role_gate_short_circuits_witness :
  ("admin" ∉ roles sample_comment_request)
  /\ RootHandler_post sample_ext sample_comment_request sample_world
     = Ok tt (mk_world (datastore sample_world) (next_id sample_world)
                (clock sample_world) (ticks sample_world)
                (cache_flushes sample_world)
                (trace sample_world ++ [EUnauthorized])).
Proof.
  assert (Hrole : "admin" ∉ roles sample_comment_request).
  { apply not_elem_of_cons. split; [done | apply not_elem_of_nil]. }
  split; [exact Hrole|].
  apply (proj1 (role_gate_short_circuits sample_ext sample_comment_request
                  "article" "2024" "3" "Hello-World" sample_world) Hrole).
Defined.

(** * Further properties *)

(** ** Optional properties *)

Lemma entity_eq (a b : entity) :
  e_kind a = e_kind b -> e_key a = e_key b -> e_attrs a = e_attrs b -> a = b.
Proof. destruct a, b; simpl; congruence. Qed.

(** The attributes after [fill_optional_properties], name by name. *)
Lemma fill_optional_properties_attrs (obj : entity)
    (property_dict : gmap string value) :
  e_kind (fill_optional_properties obj property_dict) = e_kind obj
  /\ e_key (fill_optional_properties obj property_dict) = e_key obj
  /\ forall k,
       e_attrs (fill_optional_properties obj property_dict) !! k =
       match e_attrs obj !! k with
       | Some v => Some v
       | None =>
           match property_dict !! k with
           | Some v => if truthy v then Some v else None
           | None => None
           end
       end.
Proof.
  unfold fill_optional_properties.
  apply (map_fold_weak_ind
           (fun r (m : gmap string value) =>
              e_kind r = e_kind obj /\ e_key r = e_key obj
              /\ forall k,
                   e_attrs r !! k =
                   match e_attrs obj !! k with
                   | Some v => Some v
                   | None =>
                       match m !! k with
                       | Some v => if truthy v then Some v else None
                       | None => None
                       end
                   end)).
  - repeat split. intros k. rewrite lookup_empty.
    by destruct (e_attrs obj !! k).
  - intros i x m r Hi (Hkind & Hkey & Hattrs).
    pose proof (Hattrs i) as Hri. rewrite Hi in Hri.
    destruct (truthy x) eqn:Hx; simpl.
    + destruct (e_attrs obj !! i) as [v|] eqn:Hobj.
      * rewrite bool_decide_eq_true_2 by (rewrite Hri; eauto). simpl.
        repeat split; [done..|]. intros k. rewrite Hattrs.
        destruct (decide (i = k)) as [<-|Hne].
        -- by rewrite Hobj.
        -- by rewrite lookup_insert_ne.
      * rewrite bool_decide_eq_false_2
          by (rewrite Hri; intros [? ?]; discriminate).
        simpl. repeat split; [done..|]. intros k.
        destruct (decide (i = k)) as [<-|Hne].
        -- by rewrite !lookup_insert_eq, Hobj, Hx.
        -- rewrite !lookup_insert_ne by done. apply Hattrs.
    + repeat split; [done..|]. intros k. rewrite Hattrs.
      destruct (decide (i = k)) as [<-|Hne].
      * rewrite lookup_insert_eq, Hx, Hi. done.
      * by rewrite lookup_insert_ne.
Qed.

(** X1.  [fill_optional_properties] keeps the kind and the key of the object
    and every attribute it has; of the entries of the dictionary it copies
    those with a true value under a name the object does not have, and no
    others. *)
Theorem fill_optional_properties_lookup (obj : entity)
    (property_dict : gmap string value) :
  e_kind (fill_optional_properties obj property_dict) = e_kind obj
  /\ e_key (fill_optional_properties obj property_dict) = e_key obj
  /\ forall k,
       e_attrs (fill_optional_properties obj property_dict) !! k =
       match e_attrs obj !! k with
       | Some v => Some v
       | None =>
           match property_dict !! k with
           | Some v => if truthy v then Some v else None
           | None => None
           end
       end.
Proof. apply fill_optional_properties_attrs. Qed.

(** X2.  Filling in the same dictionary a second time changes nothing. *)
Theorem fill_optional_properties_twice (obj : entity)
    (property_dict : gmap string value) :
  fill_optional_properties (fill_optional_properties obj property_dict)
    property_dict
  = fill_optional_properties obj property_dict.
Proof.
  destruct (fill_optional_properties_attrs obj property_dict)
    as (Hk1 & Hy1 & Ha1).
  destruct (fill_optional_properties_attrs
              (fill_optional_properties obj property_dict) property_dict)
    as (Hk2 & Hy2 & Ha2).
  apply entity_eq; [done..|]. apply map_eq. intros k.
  rewrite Ha2, Ha1.
  destruct (e_attrs obj !! k); [done|].
  destruct (property_dict !! k) as [v|]; [|done]. by destruct (truthy v).
Qed.

(** ** Tags *)

Module TagFacts.
Import Str.

Lemma lstrip_first s : first_is_space (lstrip s) = false.
Proof.
  induction s as [|c s IH]; simpl; [done|].
  destruct (is_space c) eqn:Hc; [done|]. simpl. by rewrite Hc.
Qed.

Lemma lstrip_fixed s : first_is_space s = false -> lstrip s = s.
Proof. destruct s as [|c s]; simpl; [done|]. by intros ->. Qed.

Lemma rstrip_first s :
  first_is_space s = false -> first_is_space (rstrip s) = false.
Proof.
  destruct s as [|c s]; simpl; [done|]. intros Hc.
  destruct (rstrip s); simpl; by rewrite Hc.
Qed.

Lemma rstrip_rstrip s : rstrip (rstrip s) = rstrip s.
Proof.
  induction s as [|c s IH]; simpl; [done|].
  destruct (rstrip s) as [|c' r] eqn:Hr.
  - destruct (is_space c) eqn:Hc; simpl; [done|]. by rewrite Hc.
  - change (rstrip (String c (String c' r))
            = String c (String c' r)).
    change (rstrip (String c (String c' r)))
      with (match rstrip (String c' r) with
            | EmptyString =>
                if is_space c then EmptyString else String c EmptyString
            | r' => String c r'
            end).
    by rewrite IH.
Qed.

Lemma strip_fixed s :
  lstrip (strip s) = strip s /\ rstrip (strip s) = strip s.
Proof.
  unfold strip. split.
  - apply lstrip_fixed, rstrip_first, lstrip_first.
  - apply rstrip_rstrip.
Qed.

Lemma all_chars_rev_app p s t :
  all_chars p (String.rev_app s t) = all_chars p s && all_chars p t.
Proof.
  revert t. induction s as [|c s IH]; intros t; simpl; [done|].
  rewrite IH. simpl. by destruct (p c), (all_chars p s), (all_chars p t).
Qed.

Lemma all_chars_rev p s : all_chars p (String.rev s) = all_chars p s.
Proof.
  unfold String.rev. rewrite all_chars_rev_app. simpl. apply andb_true_r.
Qed.

Lemma all_chars_lstrip p s :
  all_chars p s = true -> all_chars p (lstrip s) = true.
Proof.
  induction s as [|c s IH]; simpl; [done|].
  rewrite andb_true_iff. intros [Hc Hs].
  destruct (is_space c); [auto|]. simpl. by rewrite Hc, Hs.
Qed.

Lemma all_chars_rstrip p s :
  all_chars p s = true -> all_chars p (rstrip s) = true.
Proof.
  induction s as [|c s IH]; simpl; [done|].
  rewrite andb_true_iff. intros [Hc Hs]. specialize (IH Hs).
  destruct (rstrip s) as [|c' r].
  - destruct (is_space c); [done|]. simpl. by rewrite Hc.
  - change (p c && all_chars p (String c' r) = true). by rewrite Hc, IH.
Qed.

Lemma all_chars_strip p s :
  all_chars p s = true -> all_chars p (strip s) = true.
Proof. intros. by apply all_chars_rstrip, all_chars_lstrip. Qed.

(** No piece of a split holds the separator. *)
Lemma split_from_pieces sep cur s piece :
  all_chars (fun c => negb (Ascii.eqb c sep)) cur = true ->
  piece ∈ split_from sep cur s ->
  all_chars (fun c => negb (Ascii.eqb c sep)) piece = true.
Proof.
  revert cur. induction s as [|c s IH]; simpl; intros cur Hcur Hin.
  - apply list_elem_of_singleton in Hin as ->. by rewrite all_chars_rev.
  - destruct (Ascii.eqb c sep) eqn:Hc.
    + apply elem_of_cons in Hin as [->|Hin].
      * by rewrite all_chars_rev.
      * by apply (IH EmptyString).
    + apply (IH (String c cur)); [|done]. simpl. by rewrite Hc.
Qed.

End TagFacts.

(** X3.  [get_tags] gives no tags for an empty string.  For any other string
    it gives a list of tags, one for each non-empty piece between commas;
    no tag holds a comma and none starts or ends with whitespace. *)
Theorem get_tags_clean (tag_string : string) (w : world) :
  get_tags (VStr "") w = Ok VNone w
  /\ (tag_string <> "" ->
      exists tags,
        get_tags (VStr tag_string) w = Ok (VTags tags) w
        /\ length tags
           = length (List.filter (fun t => negb (String.eqb t ""))
                       (split ","%char tag_string))
        /\ forall t, t ∈ tags ->
             Str.all_chars (fun c => negb (Ascii.eqb c ","%char)) t = true
             /\ Str.lstrip t = t /\ Str.rstrip t = t).
Proof.
  split; [done|]. intros Hne. unfold get_tags. simpl.
  destruct (String.eqb_spec tag_string "") as [|_]; [done|]. simpl.
  eexists. split; [reflexivity|]. split; [by rewrite length_map|].
  intros t Hin. apply list_elem_of_fmap in Hin as (piece & -> & Hin).
  apply list_elem_of_In, filter_In in Hin as [Hin _].
  apply list_elem_of_In in Hin.
  split; [|apply TagFacts.strip_fixed].
  apply TagFacts.all_chars_strip.
  by apply (TagFacts.split_from_pieces _ EmptyString tag_string).
Qed.

Lemma get_tags_clean_witness :
  "rocq, proofs,,web" <> ""
  /\ exists tags,
       get_tags (VStr "rocq, proofs,,web") (empty_world sample_time)
       = Ok (VTags tags) (empty_world sample_time)
       /\ length tags
          = length (List.filter (fun t => negb (String.eqb t ""))
                      (split ","%char "rocq, proofs,,web"))
       /\ forall t, t ∈ tags ->
            Str.all_chars (fun c => negb (Ascii.eqb c ","%char)) t = true
            /\ Str.lstrip t = t /\ Str.rstrip t = t.
Proof.
  split; [discriminate|].
  apply (proj2 (get_tags_clean "rocq, proofs,,web" (empty_world sample_time))).
  discriminate.
Defined.

(** ** Slugs *)

Module SlugLength.
Import Str.

Lemma length_lstrip s : (String.length (lstrip s) <= String.length s)%nat.
Proof.
  induction s as [|c s IH]; simpl; [done|]. destruct (is_space c); simpl; lia.
Qed.

Lemma length_rstrip s : (String.length (rstrip s) <= String.length s)%nat.
Proof.
  induction s as [|c s IH]; simpl; [done|].
  destruct (rstrip s) as [|c' r].
  - destruct (is_space c); simpl; lia.
  - change (S (String.length (String c' r)) <= S (String.length s))%nat. lia.
Qed.

Lemma length_sub_runs_from p c b s :
  (String.length (sub_runs_from p (String c EmptyString) b s)
   <= String.length s)%nat.
Proof.
  revert b. induction s as [|x s IH]; intros b; simpl; [done|].
  destruct (p x).
  - destruct b.
    + specialize (IH true). lia.
    + specialize (IH true).
      change (S (String.length (sub_runs_from p (String c EmptyString) true s))
              <= S (String.length s))%nat.
      lia.
  - specialize (IH false). simpl. lia.
Qed.

Lemma length_delete_chars p s :
  (String.length (delete_chars p s) <= String.length s)%nat.
Proof.
  induction s as [|c s IH]; simpl; [done|]. destruct (p c); simpl; lia.
Qed.

End SlugLength.

(** X4.  The slugs are exactly the strings of word characters and hyphens
    without two hyphens in a row: each such string is its own slug and no
    other string is.  A slug is never longer than the title. *)
Theorem get_friendly_url_fixed_points (x : string) :
  (get_friendly_url x = x
   <-> Str.all_chars Str.slug_char x = true /\ Str.no_hyphen_run x = true)
  /\ (String.length (get_friendly_url x) <= String.length x)%nat.
Proof.
  split.
  - split.
    + intros Hx. rewrite <- Hx.
      split; [apply SlugFacts.slug_chars | apply SlugFacts.slug_no_hyphen_run].
    + intros [Hchars Hrun]. by apply SlugFacts.slug_fixed.
  - unfold get_friendly_url, Str.sub_runs, Str.strip.
    etrans; [apply SlugLength.length_sub_runs_from|].
    etrans; [apply SlugLength.length_delete_chars|].
    etrans; [apply SlugLength.length_sub_runs_from|].
    etrans; [apply SlugLength.length_rstrip|].
    apply SlugLength.length_lstrip.
Qed.

(** ** Article submission, further *)

Lemma quiet_unchanged {A} (m : M A) w :
  quiet m -> unchanged w (final_world (m w)).
Proof. intros Hq. apply Hq. Qed.

Lemma unchanged_trans w1 w2 w3 :
  unchanged w1 w2 -> unchanged w2 w3 -> unchanged w1 w3.
Proof.
  intros (? & ? & ? & ?) (? & ? & ? & ?). repeat split; congruence.
Qed.

Lemma bind_fails_quietly {A B} (m : M A) (k : A -> M B) :
  quiet m -> (forall a, fails_quietly (k a)) -> fails_quietly (m ≫= k).
Proof.
  intros Hm Hk w e w'. rewrite bind_run.
  pose proof (quiet_unchanged m w Hm) as Hw.
  destruct (m w) as [a w1|e1 w1]; simpl in Hw.
  - intros Hrun. eapply unchanged_trans; [exact Hw|]. by eapply Hk.
  - by intros [= <- <-].
Qed.

Lemma quiet_get_hash_from_request req specs :
  Forall quiet_spec specs -> quiet (get_hash_from_request req specs).
Proof. intros. by apply quiet_extract_fields. Qed.

Lemma quiet_article_specs ext req f :
  (forall args, quiet (f args)) ->
  quiet (get_hash_from_request req
           (article_fields ext
            ++ [Derived "permalink" f ["title"; "published"]])).
Proof.
  intros Hf. apply quiet_get_hash_from_request, Forall_app. split.
  - apply quiet_article_fields.
  - apply List.Forall_cons; [exact Hf | apply List.Forall_nil].
Qed.

Lemma quiet_permalink_func ty w f w' :
  permalink_funcs ty w = Ok f w' -> w' = w /\ forall args, quiet (f args).
Proof.
  unfold permalink_funcs.
  repeat destruct (String.eqb _ _); inversion 1; subst;
    split; auto with quiet.
Qed.

(** X5.  An article submission that raises has stored nothing, sent nothing
    and left the render cache alone: every failure comes before the put. *)
Theorem process_article_submission_fails_quietly (ext : externals)
    (req : request) (article_type : string) (w w' : world) (e : exn) :
  process_article_submission ext req article_type w = Raise e w' ->
  trace w' = trace w /\ datastore w' = datastore w
  /\ next_id w' = next_id w /\ cache_flushes w' = cache_flushes w.
Proof.
  unfold process_article_submission. rewrite bind_run.
  destruct (permalink_funcs article_type w) as [f w1|e1 w1] eqn:Hf.
  2:{ unfold permalink_funcs in Hf.
      repeat destruct (String.eqb _ _); inversion Hf; subst.
      by intros [= <- <-]. }
  apply quiet_permalink_func in Hf as [-> Hquiet].
  revert w e w'.
  match goal with
  | |- forall w e w', ?m w = Raise e w' -> _ =>
      change (fails_quietly m)
  end.
  apply bind_fails_quietly; [by apply quiet_article_specs|]. intros h.
  do 6 (apply bind_fails_quietly; [auto with quiet|]; intros ?).
  intros w e w'. rewrite bind_run. unfold put.
  match goal with
  | |- context [e_key ?x] => destruct (e_key x)
  end; simpl; discriminate.
Qed.

Lemma process_article_submission_fails_quietly_witness :
  process_article_submission sample_ext malformed_time_request "blog"
    sample_world = Raise ValueError sample_world
  /\ trace sample_world = trace sample_world
  /\ datastore sample_world = datastore sample_world
  /\ next_id sample_world = next_id sample_world
  /\ cache_flushes sample_world = cache_flushes sample_world.
Proof.
  split; [vm_compute; reflexivity|].
  apply (process_article_submission_fails_quietly sample_ext
           malformed_time_request "blog" sample_world sample_world ValueError).
  vm_compute; reflexivity.
Defined.

Lemma permalink_funcs_known ty w :
  ty = "page" \/ ty = "blog" ->
  exists f, permalink_funcs ty w = Ok f w.
Proof. intros [->| ->]; eexists; reflexivity. Qed.

(** The first four fields of an article are plain ones. *)
Lemma article_specs_split ext f :
  article_fields ext ++ [Derived "permalink" f ["title"; "published"]]
  = [Plain "title"; Plain "body"; Plain "format"; Plain "legacy_id"]
    ++ [Transformed "published" (get_datetime ext);
        Transformed "updated" (get_datetime ext);
        Transformed "tags" get_tags;
        Derived "html" (get_html ext) ["body"; "format"];
        Derived "permalink" f ["title"; "published"]].
Proof. reflexivity. Qed.

Lemma get_datetime_Raise_world ext v w e w' :
  get_datetime ext v w = Raise e w' -> w' = w.
Proof.
  unfold get_datetime. destruct (truthy v).
  - destruct v; try (by intros [= _ <-]).
    destruct (strptime ext s); by inversion 1.
  - by rewrite bind_run.
Qed.

(** X6.  An article submission whose [published] field is sent but cannot be
    parsed raises [ValueError] at once; so does one whose [updated] field
    cannot be parsed.  Nothing is stored or sent. *)
Theorem article_malformed_time_raises (ext : externals) (req : request)
    (article_type : string) (w : world) :
  article_type = "page" \/ article_type = "blog" ->
  (~ well_formed_time ext (request_get req "published") ->
   process_article_submission ext req article_type w = Raise ValueError w)
  /\ (well_formed_time ext (request_get req "published") ->
      ~ well_formed_time ext (request_get req "updated") ->
      exists w',
        process_article_submission ext req article_type w
        = Raise ValueError w'
        /\ trace w' = trace w /\ datastore w' = datastore w
        /\ cache_flushes w' = cache_flushes w).
Proof.
  intros Hty. destruct (permalink_funcs_known article_type w Hty) as [f Hf].
  destruct (extract_fields_plain_Ok req
              [Plain "title"; Plain "body"; Plain "format"; Plain "legacy_id"]
              eq_refl ∅ w) as [h1 Hh1].
  assert (Hstart : forall k : gmap string value -> M unit,
            (get_hash_from_request req
               (article_fields ext
                ++ [Derived "permalink" f ["title"; "published"]]) ≫= k) w
            = match get_datetime ext (VStr (request_get req "published")) w with
              | Ok v w1 =>
                  (extract_fields req (store_field "published" v h1)
                     [Transformed "updated" (get_datetime ext);
                      Transformed "tags" get_tags;
                      Derived "html" (get_html ext) ["body"; "format"];
                      Derived "permalink" f ["title"; "published"]] ≫= k) w1
              | Raise e w1 => Raise e w1
              end).
  { intros k. unfold get_hash_from_request.
    rewrite article_specs_split, bind_run, extract_fields_app, bind_run, Hh1.
    cbn [extract_fields extract_field]. rewrite !bind_run.
    by destruct (get_datetime ext (VStr (request_get req "published")) w). }
  unfold process_article_submission. rewrite bind_run, Hf, Hstart.
  pose proof (get_datetime_run ext (request_get req "published") w) as Hpub.
  pose proof (quiet_get_datetime ext (VStr (request_get req "published")) w)
    as (Hq1 & Hq2 & _ & Hq3).
  destruct (get_datetime ext (VStr (request_get req "published")) w)
    as [v w1|e w1] eqn:Hrun; simpl in Hq1, Hq2, Hq3.
  - split; [tauto|]. intros _ Hupd.
    cbn [extract_fields extract_field]. rewrite !bind_run.
    pose proof (get_datetime_run ext (request_get req "updated") w1) as Hu.
    pose proof (quiet_get_datetime ext (VStr (request_get req "updated")) w1)
      as (Hq4 & Hq5 & _ & Hq6).
    destruct (get_datetime ext (VStr (request_get req "updated")) w1)
      as [v2 w2|e2 w2]; simpl in Hq4, Hq5, Hq6; [tauto|].
    destruct Hu as [-> _]. exists w2.
    repeat split; congruence.
  - split; [|tauto]. intros _. destruct Hpub as [-> _].
    f_equal. by apply get_datetime_Raise_world in Hrun.
Qed.

Lemma article_malformed_time_raises_witness :
  ~ well_formed_time sample_ext (request_get malformed_time_request "published")
  /\ process_article_submission sample_ext malformed_time_request "blog"
       sample_world = Raise ValueError sample_world.
Proof.
  assert (Hbad : ~ well_formed_time sample_ext
                     (request_get malformed_time_request "published")).
  { intros [Hempty|[d Hd]]; [vm_compute in Hempty | vm_compute in Hd];
      discriminate. }
  split; [exact Hbad|].
  apply (proj1 (article_malformed_time_raises sample_ext
                  malformed_time_request "blog" sample_world
                  (or_intror eq_refl)) Hbad).
Defined.

Lemma lookup_untouched req k specs h w h' w' :
  forallb (plain_for k) specs = true ->
  existsb (is_plain_named k) specs = false ->
  extract_fields req h specs w = Ok h' w' ->
  h' !! k = h !! k.
Proof.
  intros Hall Hnone Hrun.
  rewrite (extract_fields_plain_lookup req k specs Hall _ _ _ _ Hrun).
  by rewrite Hnone.
Qed.

Lemma get_html_value ext body format w v w' :
  get_html ext [body; format] w = Ok v w' ->
  (exists s, v = VStr s) \/ v = body.
Proof.
  unfold get_html. case_bool_decide; inversion 1; eauto.
Qed.

(** What the extraction for an article leaves under [title], [body],
    [published] and [html]. *)
Lemma extract_article_fields ext req f w h w' :
  get_hash_from_request req
    (article_fields ext ++ [Derived "permalink" f ["title"; "published"]]) w
  = Ok h w' ->
  (forall k, k = "title" \/ k = "body" ->
     h !! k = if String.eqb (request_get req k) "" then None
              else Some (VStr (request_get req k)))
  /\ (forall v, h !! "published" = Some v -> exists d, v = VDate d)
  /\ (forall v, h !! "html" = Some v -> exists s, v = VStr s).
Proof.
  unfold get_hash_from_request. intros Hrun. split; [|split].
  - intros k [->| ->].
    + pose proof (fun A => extract_fields_plain_lookup req "title" _ A
                             _ _ _ _ Hrun) as H.
      rewrite (H eq_refl).
      rewrite lookup_empty. simpl. by destruct (String.eqb _ "").
    + pose proof (fun A => extract_fields_plain_lookup req "body" _ A
                             _ _ _ _ Hrun) as H.
      rewrite (H eq_refl).
      rewrite lookup_empty. simpl. by destruct (String.eqb _ "").
  - change (article_fields ext
            ++ [Derived "permalink" f ["title"; "published"]])
      with ([Plain "title"; Plain "body"; Plain "format"; Plain "legacy_id"]
            ++ [Transformed "published" (get_datetime ext)]
            ++ [Transformed "updated" (get_datetime ext);
                Transformed "tags" get_tags;
                Derived "html" (get_html ext) ["body"; "format"];
                Derived "permalink" f ["title"; "published"]]) in Hrun.
    rewrite extract_fields_app in Hrun.
    apply bind_Ok_inv in Hrun as (h1 & w1 & _ & Hrun).
    rewrite extract_fields_app in Hrun.
    apply bind_Ok_inv in Hrun as (h2 & w2 & Hpub & Hrest).
    pose proof (fun A B => lookup_untouched req "published" _ _ _ _ _ A B
                             Hrest) as H.
    rewrite (H eq_refl eq_refl). clear H.
    cbn [extract_fields extract_field] in Hpub.
    apply bind_Ok_inv in Hpub as (h2' & w2' & Hpub & Hret).
    inversion Hret; subst h2' w2'; clear Hret.
    apply bind_Ok_inv in Hpub as (v & w3 & Hdt & Hret).
    inversion Hret; subst h2 w3; clear Hret.
    pose proof (get_datetime_run ext (request_get req "published") w1) as Hd.
    rewrite Hdt in Hd. destruct Hd as [_ [d ->]].
    rewrite lookup_store_field. simpl. intros x [= <-]. eauto.
  - change (article_fields ext
            ++ [Derived "permalink" f ["title"; "published"]])
      with ([Plain "title"; Plain "body"; Plain "format"; Plain "legacy_id";
             Transformed "published" (get_datetime ext);
             Transformed "updated" (get_datetime ext);
             Transformed "tags" get_tags]
            ++ [Derived "html" (get_html ext) ["body"; "format"]]
            ++ [Derived "permalink" f ["title"; "published"]]) in Hrun.
    rewrite extract_fields_app in Hrun.
    apply bind_Ok_inv in Hrun as (h0 & w0 & Hfirst & Hrun).
    rewrite extract_fields_app in Hrun.
    apply bind_Ok_inv in Hrun as (h3 & w3 & Hhtml & Hrest).
    pose proof (fun A B => lookup_untouched req "html" _ _ _ _ _ A B Hrest)
      as H.
    rewrite (H eq_refl eq_refl). clear H.
    cbn [extract_fields extract_field] in Hhtml.
    apply bind_Ok_inv in Hhtml as (h3' & w3' & Hhtml & Hret).
    inversion Hret; subst h3' w3'; clear Hret.
    apply bind_Ok_inv in Hhtml as (v & w4 & Hget & Hret).
    inversion Hret; subst h3 w4; clear Hret.
    rewrite lookup_store_field. simpl.
    pose proof (fun A B => lookup_untouched req "html" _ _ _ _ _ A B Hfirst)
      as H.
    rewrite (H eq_refl eq_refl). clear H.
    rewrite lookup_empty.
    destruct (truthy v) eqn:Hv; [|done]. intros x [= <-].
    simpl in Hget. apply get_html_value in Hget as [Hs| ->]; [done|].
    pose proof (fun A => extract_fields_plain_lookup req "body" _ A
                           _ _ _ _ Hfirst) as H.
    rewrite (H eq_refl) in Hv |- *. clear H.
    simpl in Hv |- *. rewrite lookup_empty in Hv |- *.
    destruct (String.eqb (request_get req "body") ""); simpl in *; eauto.
    discriminate.
Qed.

(** A successful article submission, in full: the entity it stored, where,
    and what the entity holds. *)
Lemma process_article_submission_stored ext req ty w w' :
  process_article_submission ext req ty w = Ok tt w' ->
  exists a d html f w0 w0',
    datastore w' = datastore w ++ [a]
    /\ next_id w' = N.succ (next_id w)
    /\ e_key a = Some (next_id w)
    /\ e_kind a = Article
    /\ trace w' = trace w ++ [EPut a; ESuccessfulPost (attr a "permalink") ty;
                              EInvalidateCache]
    /\ request_get req "title" <> ""
    /\ attr a "title" = VStr (request_get req "title")
    /\ attr a "body" = VStr (request_get req "body")
    /\ attr a "published" = VDate d
    /\ attr a "html" = VStr html
    /\ attr a "article_type" = VStr ty
    /\ permalink_funcs ty w = Ok f w
    /\ f [VStr (request_get req "title"); VDate d] w0
       = Ok (attr a "permalink") w0'.
Proof.
  unfold process_article_submission. intros Hrun.
  apply bind_Ok_inv in Hrun as (f & w1 & Hf & Hrun).
  destruct (quiet_permalink_func _ _ _ _ Hf) as [-> Hquiet].
  apply bind_Ok_inv in Hrun as (h & w2 & Hext & Hrun).
  pose proof (quiet_article_specs ext req f Hquiet w) as (_ & Hq1 & Hq2 & _).
  rewrite Hext in Hq1, Hq2. simpl in Hq1, Hq2.
  destruct (extract_article_fields _ _ _ _ _ _ Hext) as (Hplain & Hdate & Hstr).
  unfold get_hash_from_request in Hext. rewrite extract_fields_app in Hext.
  apply bind_Ok_inv in Hext as (h1 & w3 & Hfields & Hlast).
  cbn [extract_fields extract_field] in Hlast.
  apply bind_Ok_inv in Hlast as (h2 & w4 & Hlast & Hret).
  inversion Hret; subst h2 w4; clear Hret.
  apply bind_Ok_inv in Hlast as (v & w4 & Hperm & Hret).
  inversion Hret; subst h w4; clear Hret.
  assert (Hnone : h1 !! "permalink" = None).
  { rewrite (extract_fields_plain_lookup req "permalink" (article_fields ext)
               eq_refl _ _ _ _ Hfields). by rewrite lookup_empty. }
  apply bind_Ok_inv in Hrun as (permalink & ? & [Hp ->]%item_Ok_inv & Hrun).
  apply bind_Ok_inv in Hrun as (title & ? & [Ht ->]%item_Ok_inv & Hrun).
  apply bind_Ok_inv in Hrun as (body & ? & [Hb ->]%item_Ok_inv & Hrun).
  apply bind_Ok_inv in Hrun as (html & ? & [Hh ->]%item_Ok_inv & Hrun).
  apply bind_Ok_inv in Hrun as (published & ? & [Hpub ->]%item_Ok_inv & Hrun).
  apply bind_Ok_inv in Hrun as (updated & ? & [Hu ->]%item_Ok_inv & Hrun).
  destruct (Hdate _ Hpub) as [d ->]. destruct (Hstr _ Hh) as [html_s ->].
  rewrite (Hplain "title" (or_introl eq_refl)) in Ht.
  rewrite (Hplain "body" (or_intror eq_refl)) in Hb.
  destruct (String.eqb_spec (request_get req "title") "") as [|Htitle];
    [done|].
  destruct (String.eqb (request_get req "body") ""); [done|].
  injection Ht as <-. injection Hb as <-.
  rewrite lookup_store_field in Hp, Hpub. simpl in Hp, Hpub.
  destruct (truthy v); [|congruence]. inversion Hp; subst v; clear Hp.
  change (map (fun d0 => default VNone (h1 !! d0)) ["title"; "published"])
    with [default VNone (h1 !! "title"); default VNone (h1 !! "published")]
    in Hperm.
  rewrite Hpub in Hperm.
  pose proof (fun A => extract_fields_plain_lookup req "title"
                         (article_fields ext) A _ _ _ _ Hfields) as Ht1.
  rewrite (Ht1 eq_refl), lookup_empty in Hperm. simpl in Hperm.
  destruct (String.eqb_spec (request_get req "title") "") as [|_]; [done|].
  simpl in Hperm.
  match type of Hrun with
  | context [fill_optional_properties ?obj ?h] =>
      set (article := fill_optional_properties obj h) in *;
      pose proof (fill_optional_properties_spec obj h) as (Hkind & Hkey & _);
      pose proof (fun k v => attr_fill_optional_properties obj h k v) as Hattr;
      fold article in Hkind, Hkey, Hattr
  end.
  simpl in Hkind, Hkey.
  apply bind_Ok_inv in Hrun as (key & w5 & Hput & Hrun).
  unfold put in Hput. simpl in Hput. rewrite Hkey, Hkind in Hput.
  inversion Hput; subst key w5; clear Hput.
  apply bind_Ok_inv in Hrun as ([] & w5 & Hpost & Hinv).
  inversion Hpost; subst w5; clear Hpost.
  inversion Hinv; subst w'; clear Hinv. simpl.
  set (final := set_associated_data article
                  [("relevant_links", request_get req "relevant_links");
                   ("amazon_items", request_get req "amazon_items")]).
  exists (mk_entity Article (Some (next_id w2)) (e_attrs final)),
    d, html_s, f, w3, w2.
  assert (Hsame : forall k,
            attr (mk_entity Article (Some (next_id w2)) (e_attrs final)) k
            = attr final k) by done.
  assert (Hget : forall k v, k <> "associated_data" ->
            (list_to_map
               [("permalink", permalink); ("article_type", VStr ty);
                ("title", VStr (request_get req "title"));
                ("body", VStr (request_get req "body"));
                ("html", VStr html_s);
                ("published", VDate d); ("updated", updated);
                ("format", VStr "html")] : gmap string value) !! k = Some v ->
            attr final k = v).
  { intros k x Hne Hk. unfold attr, final, set_associated_data, set_attr.
    simpl. rewrite lookup_insert_ne by done. apply (Hattr k x Hk). }
  rewrite !Hsame.
  rewrite (Hget "permalink" permalink), (Hget "article_type" (VStr ty)),
    (Hget "title" (VStr (request_get req "title"))),
    (Hget "body" (VStr (request_get req "body"))),
    (Hget "published" (VDate d)), (Hget "html" (VStr html_s))
    by (done || by simplify_map_eq).
  assert (Hq3 := proj1 (Hquiet [VStr (request_get req "title"); VDate d] w3)).
  rewrite Hperm in Hq3. simpl in Hq3.
  pose proof (quiet_extract_fields req _ (quiet_article_fields ext) ∅ w)
    as (Hq4 & _ & _ & _).
  rewrite Hfields in Hq4. simpl in Hq4.
  rewrite Hq1, Hq2, Hq3, Hq4, <- !app_assoc. repeat split; done.
Qed.

Lemma attr_lookup e k v :
  attr e k = v -> v <> VNone -> e_attrs e !! k = Some v.
Proof. unfold attr. destruct (e_attrs e !! k); simpl; congruence. Qed.

Lemma by_permalink_matches a p :
  e_kind a = Article -> attr a "permalink" = VStr p ->
  entity_matches (by_permalink p) a = true.
Proof.
  intros Hkind Hp. unfold entity_matches. simpl.
  rewrite Hkind, (attr_lookup a "permalink" (VStr p) Hp) by done. simpl.
  by rewrite !bool_decide_eq_true_2.
Qed.

Lemma permalink_is_string ty w f args w0 v w0' :
  permalink_funcs ty w = Ok f w -> f args w0 = Ok v w0' ->
  exists p, v = VStr p.
Proof.
  unfold permalink_funcs. intros Hf Hv.
  repeat destruct (String.eqb _ _); inversion Hf; subst; clear Hf.
  - unfold permalink_page in Hv. destruct args as [|t [|d [|]]]; try done.
    apply bind_Ok_inv in Hv as (s & ? & _ & [= <- _]). eauto.
  - unfold permalink_blog in Hv. destruct args as [|t [|d [|]]]; try done.
    destruct d; try done.
    apply bind_Ok_inv in Hv as (s & ? & _ & [= <- _]). eauto.
Qed.

(** X7.  A successful article submission adds one article under a fresh key
    and replaces nothing: permalinks are not checked for uniqueness, so the
    articles found by the new permalink are those found before, followed by
    the new one. *)
Theorem article_submission_appends (ext : externals) (req : request)
    (article_type : string) (w w' : world) :
  process_article_submission ext req article_type w = Ok tt w' ->
  exists a p,
    attr a "permalink" = VStr p
    /\ e_kind a = Article
    /\ e_key a = Some (next_id w)
    /\ next_id w' = N.succ (next_id w)
    /\ datastore w' = datastore w ++ [a]
    /\ run_query (by_permalink p) (datastore w')
       = run_query (by_permalink p) (datastore w) ++ [a].
Proof.
  intros Hrun.
  apply process_article_submission_stored in Hrun
    as (a & d & html & f & w0 & w0' & Hds & Hnext & Hkey & Hkind & _ & _ & _
        & _ & _ & _ & _ & Hf & Hperm).
  destruct (permalink_is_string _ _ _ _ _ _ _ Hf Hperm) as [p Hp].
  exists a, p. repeat split; [done..|].
  rewrite Hds. unfold run_query. simpl.
  rewrite List.filter_app. simpl.
  by rewrite (by_permalink_matches a p Hkind Hp).
Qed.

Lemma article_submission_appends_witness :
  exists a p,
    attr a "permalink" = VStr p
    /\ e_kind a = Article
    /\ e_key a = Some (next_id sample_world)
    /\ next_id (final_world
                  (process_article_submission sample_ext
                     sample_article_request "blog" sample_world))
       = N.succ (next_id sample_world)
    /\ datastore (final_world
                    (process_article_submission sample_ext
                       sample_article_request "blog" sample_world))
       = datastore sample_world ++ [a]
    /\ run_query (by_permalink p)
         (datastore (final_world
                       (process_article_submission sample_ext
                          sample_article_request "blog" sample_world)))
       = run_query (by_permalink p) (datastore sample_world) ++ [a].
Proof.
  apply (article_submission_appends sample_ext sample_article_request "blog"
           sample_world).
  vm_compute; reflexivity.
Defined.

(** X8.  The article a successful POST on the root handler creates is a page
    whose permalink is the friendly slug of the title sent, without a date. *)
Theorem page_permalink_is_slug (ext : externals) (req : request)
    (w w' : world) :
  "admin" ∈ roles req ->
  RootHandler_post ext req w = Ok tt w' ->
  exists a,
    datastore w' = datastore w ++ [a]
    /\ attr a "article_type" = VStr "page"
    /\ attr a "title" = VStr (request_get req "title")
    /\ attr a "permalink" = VStr (get_friendly_url (request_get req "title")).
Proof.
  intros Hrole. unfold RootHandler_post, role.
  rewrite bool_decide_eq_true_2 by done. intros Hrun.
  apply process_article_submission_stored in Hrun
    as (a & d & html & f & w0 & w0' & Hds & _ & _ & _ & _ & _ & Htitle
        & _ & _ & _ & Htype & Hf & Hperm).
  assert (f = permalink_page) as -> by (by inversion Hf).
  unfold permalink_page in Hperm. rewrite bind_run in Hperm.
  cbv [friendly_url_of mret M_ret] in Hperm. inversion Hperm as [[Hp Hw]].
  by exists a.
Qed.

Lemma page_permalink_is_slug_witness :
  exists a,
    datastore (final_world
                 (RootHandler_post sample_ext sample_article_request
                    sample_world))
    = datastore sample_world ++ [a]
    /\ attr a "article_type" = VStr "page"
    /\ attr a "title" = VStr (request_get sample_article_request "title")
    /\ attr a "permalink"
       = VStr (get_friendly_url (request_get sample_article_request "title")).
Proof.
  apply (page_permalink_is_slug sample_ext sample_article_request
           sample_world).
  - repeat constructor.
  - vm_compute; reflexivity.
Defined.

(** X9.  Round trip: after a successful POST on the month handler, a GET on
    the article handler with [str(published.year)], [str(published.month)]
    and the slug of the title shows the new article with its title, provided
    no older article has the same permalink. *)
Theorem blog_post_then_get (ext : externals) (req req' : request)
    (year month : string) (w w' : world) (a : entity) (d : datetime) :
  MonthHandler_post ext req year month w = Ok tt w' ->
  last (datastore w') = Some a ->
  attr a "published" = VDate d ->
  run_query
    (by_permalink (pretty (dt_year d) +:+ "/" +:+ pretty (dt_month d)
                   +:+ "/" +:+ get_friendly_url (request_get req "title")))
    (datastore w) = [] ->
  exists two comments,
    ArticleHandler_get ext req' (pretty (dt_year d)) (pretty (dt_month d))
      (get_friendly_url (request_get req "title")) w'
    = render (mk_render_context two (VStr (request_get req "title")) a
                comments) w'.
Proof.
  unfold MonthHandler_post. intros Hrun Hlast Hd Hfree.
  apply process_article_submission_stored in Hrun
    as (a0 & d0 & html & f & w0 & w0' & Hds & _ & _ & Hkind & _ & _ & Htitle
        & _ & Hpub & Hhtml & _ & Hf & Hperm).
  rewrite Hds, last_snoc in Hlast. injection Hlast as ->.
  rewrite Hd in Hpub. injection Hpub as <-.
  assert (f = permalink_blog) as -> by (by inversion Hf).
  unfold permalink_blog in Hperm. rewrite bind_run in Hperm.
  cbv [friendly_url_of mret M_ret] in Hperm. inversion Hperm as [[Hp Hw]].
  assert (Hget : get (by_permalink
                        (pretty (dt_year d) +:+ "/" +:+ pretty (dt_month d)
                         +:+ "/"
                         +:+ get_friendly_url (request_get req "title"))) w'
                 = Ok (Some a) w').
  { unfold get, run_query. simpl q_order_desc. cbv iota.
    rewrite Hds, List.filter_app. unfold run_query in Hfree.
    simpl in Hfree. rewrite Hfree. simpl.
    by rewrite (by_permalink_matches a _ Hkind (eq_sym Hp)). }
  unfold ArticleHandler_get. rewrite bind_run, Hget, bind_run.
  unfold comment_set at 1. rewrite bind_run.
  unfold use_two_columns, py_len. rewrite Htitle, Hhtml.
  destruct (is_big ext a); eexists _, _; reflexivity.
Qed.

Lemma blog_post_then_get_witness :
  exists two comments,
    ArticleHandler_get sample_ext sample_comment_request
      (pretty (dt_year sample_time)) (pretty (dt_month sample_time))
      (get_friendly_url (request_get sample_article_request "title"))
      sample_posted
    = render (mk_render_context two
                (VStr (request_get sample_article_request "title"))
                sample_post comments) sample_posted.
Proof.
  apply (blog_post_then_get sample_ext sample_article_request
           sample_comment_request "2024" "03" sample_world sample_posted
           sample_post sample_time); vm_compute; reflexivity.
Defined.

(** ** Comment submission, further *)

Lemma elem_of_replaced e id ds : e ∈ replaced e id ds.
Proof.
  unfold replaced. destruct (existsb _ ds) eqn:Hex.
  - apply existsb_exists in Hex as (x & Hin & Hx).
    apply list_elem_of_fmap. exists x. rewrite Hx.
    split; [done | by apply list_elem_of_In].
  - apply elem_of_app. right. constructor.
Qed.

Lemma comments_of_replaced e id k id' ds :
  e_kind e = Article ->
  comments_of k id' (replaced e id ds) = comments_of k id' ds.
Proof.
  intros Hkind. unfold comments_of, run_query, replaced. simpl. rewrite Hkind.
  assert (He : entity_matches
                 (filter_by (Query_new Comment) "article" OpEq (VKey k id')) e
               = false).
  { unfold entity_matches. simpl. rewrite Hkind. done. }
  destruct (existsb _ ds).
  - induction ds as [|x ds IH]; simpl; [done|].
    destruct (same_key Article id x) eqn:Hx.
    + rewrite He. unfold same_key in Hx.
      apply andb_true_iff in Hx as [Hk _]. apply bool_decide_eq_true in Hk.
      unfold entity_matches at 2. simpl. rewrite Hk. simpl. apply IH.
    + destruct (entity_matches _ x); by rewrite IH.
  - rewrite List.filter_app. simpl. rewrite He. apply app_nil_r.
Qed.

(** A successful comment submission on a stored article, in full. *)
Lemma process_comment_submission_stored ext req a id w w' :
  e_key a = Some id ->
  process_comment_submission ext req (Some a) w = Ok tt w' ->
  exists c,
    datastore w' = replaced (counted a) id (datastore w) ++ [c]
    /\ next_id w' = N.succ (next_id w)
    /\ e_kind c = Comment
    /\ e_key c = Some (next_id w)
    /\ attr c "article" = VKey (e_kind a) id
    /\ attr c "body" = VStr (request_get req "body")
    /\ attr c "thread" = VStr (request_get req "thread").
Proof.
  intros Hkey. unfold process_comment_submission. intros Hrun.
  apply bind_Ok_inv in Hrun as (parent & w0 & Hbump & Hrun).
  rewrite bump_num_comments_run in Hbump.
  destruct (_ || _); [|done]. injection Hbump as <- <-.
  apply bind_Ok_inv in Hrun as (key & w1 & Hput & Hrun).
  unfold put in Hput.
  change (e_key (counted a)) with (e_key a) in Hput.
  change (e_kind (counted a)) with (e_kind a) in Hput.
  rewrite Hkey in Hput. injection Hput as <- <-.
  apply bind_Ok_inv in Hrun as (h & w2 & Hext & Hrun).
  pose proof (extract_comment_fields ext req
                {| datastore :=
                     if existsb (same_key (e_kind a) id) (datastore w)
                     then map (fun x => if same_key (e_kind a) id x
                                        then counted a else x) (datastore w)
                     else datastore w ++ [counted a];
                   next_id := next_id w; clock := clock w; ticks := ticks w;
                   cache_flushes := cache_flushes w;
                   trace := trace w ++ [EPut (counted a)] |}) as Hfields.
  pose proof (quiet_extract_fields req (comment_fields ext)
                (quiet_comment_fields ext) ∅
                {| datastore :=
                     if existsb (same_key (e_kind a) id) (datastore w)
                     then map (fun x => if same_key (e_kind a) id x
                                        then counted a else x) (datastore w)
                     else datastore w ++ [counted a];
                   next_id := next_id w; clock := clock w; ticks := ticks w;
                   cache_flushes := cache_flushes w;
                   trace := trace w ++ [EPut (counted a)] |})
    as (_ & Hq1 & Hq2 & _).
  fold (get_hash_from_request req (comment_fields ext)) in Hq1, Hq2.
  rewrite Hext in Hfields, Hq1, Hq2. simpl in Hq1, Hq2.
  destruct Hfields as [_ Hlook].
  apply bind_Ok_inv in Hrun as (name & ? & [Hn ->]%item_Ok_inv & Hrun).
  apply bind_Ok_inv in Hrun as (email & ? & [He ->]%item_Ok_inv & Hrun).
  apply bind_Ok_inv in Hrun as (body & ? & [Hb ->]%item_Ok_inv & Hrun).
  apply bind_Ok_inv in Hrun as (body' & ? & [Hb' ->]%item_Ok_inv & Hrun).
  apply bind_Ok_inv in Hrun as (thread & ? & [Ht ->]%item_Ok_inv & Hrun).
  rewrite (Hlook "body" ltac:(in_required)) in Hb'.
  rewrite (Hlook "thread" ltac:(in_required)) in Ht.
  destruct (String.eqb (request_get req "body") ""); [done|].
  destruct (String.eqb (request_get req "thread") ""); [done|].
  injection Hb' as <-. injection Ht as <-.
  match type of Hrun with
  | context [fill_optional_properties ?obj ?h] =>
      set (comment := fill_optional_properties obj h) in *;
      pose proof (fill_optional_properties_spec obj h) as (Hkind & Hk & _);
      pose proof (fun k v => attr_fill_optional_properties obj h k v) as Hattr;
      fold comment in Hkind, Hk, Hattr
  end.
  simpl in Hkind, Hk.
  apply bind_Ok_inv in Hrun as (key & w5 & Hput & Hrun).
  unfold put in Hput. rewrite Hk, Hkind in Hput.
  injection Hput as <- <-.
  apply bind_Ok_inv in Hrun as ([] & w5 & Hpost & Hinv).
  injection Hpost as <-. injection Hinv as <-. simpl.
  exists (mk_entity Comment (Some (next_id w2)) (e_attrs comment)).
  rewrite Hq1, Hq2. unfold replaced.
  change (e_kind (counted a)) with (e_kind a).
  repeat split; try done.
  - apply (Hattr "article"). by simplify_map_eq.
  - apply (Hattr "body"). by simplify_map_eq.
  - apply (Hattr "thread"). by simplify_map_eq.
Qed.

(** X10.  After a successful comment submission on a stored article the
    datastore holds the article with its counter raised and the new comment;
    the comments that refer to the article are those from before followed by
    the new one, so a counter that agreed with their number still does. *)
Theorem comment_joins_comment_set (ext : externals) (req : request)
    (article : entity) (id : N) (w w' : world) :
  e_kind article = Article ->
  e_key article = Some id ->
  process_comment_submission ext req (Some article) w = Ok tt w' ->
  exists comment,
    counted article ∈ datastore w'
    /\ comment ∈ datastore w'
    /\ e_kind comment = Comment
    /\ attr comment "body" = VStr (request_get req "body")
    /\ comment_set (counted article) w'
       = Ok (comments_of Article id (datastore w) ++ [comment]) w'
    /\ (attr article "num_comments"
          = VInt (Z.of_nat (length (comments_of Article id (datastore w))))
        \/ (attr article "num_comments" = VNone
            /\ comments_of Article id (datastore w) = []) ->
        attr (counted article) "num_comments"
        = VInt (Z.of_nat (length (comments_of Article id (datastore w)
                                  ++ [comment])))).
Proof.
  intros Hkind Hkey Hrun.
  apply (process_comment_submission_stored _ _ _ id) in Hrun
    as (c & Hds & _ & Hckind & Hckey & Hart & Hbody & _); [|done].
  exists c. rewrite Hds. repeat split; try done.
  - apply elem_of_app. left. apply elem_of_replaced.
  - apply elem_of_app. right. constructor.
  - unfold comment_set. change (e_key (counted article)) with (e_key article).
    change (e_kind (counted article)) with (e_kind article).
    rewrite Hkey, Hkind, Hds. f_equal.
    fold (comments_of Article id
            (replaced (counted article) id (datastore w) ++ [c])).
    unfold comments_of at 1. unfold run_query. simpl q_order_desc. cbv iota.
    rewrite List.filter_app.
    change (List.filter ?f (replaced (counted article) id (datastore w)))
      with (comments_of Article id
              (replaced (counted article) id (datastore w))).
    rewrite comments_of_replaced by done. f_equal.
    rewrite Hkind in Hart. simpl.
    unfold entity_matches. simpl. rewrite Hckind.
    rewrite (attr_lookup c "article" _ Hart) by done. simpl.
    by rewrite !bool_decide_eq_true_2.
  - assert (Hcount : attr (counted article) "num_comments"
                     = VInt (next_count (attr article "num_comments"))).
    { unfold counted, attr at 1, set_attr. simpl e_attrs.
      by rewrite lookup_insert_eq. }
    rewrite Hcount, length_app. simpl length.
    intros [->|[-> ->]]; simpl; [|done].
    destruct (comments_of Article id (datastore w)); simpl; [done|].
    f_equal. lia.
Qed.

Lemma comment_joins_comment_set_witness :
  exists comment,
    counted about_page ∈ datastore sample_commented
    /\ comment ∈ datastore sample_commented
    /\ e_kind comment = Comment
    /\ attr comment "body" = VStr (request_get sample_comment_request "body")
    /\ comment_set (counted about_page) sample_commented
       = Ok (comments_of Article 1 (datastore sample_world) ++ [comment])
           sample_commented
    /\ (attr about_page "num_comments"
          = VInt (Z.of_nat
                    (length (comments_of Article 1 (datastore sample_world))))
        \/ (attr about_page "num_comments" = VNone
            /\ comments_of Article 1 (datastore sample_world) = []) ->
        attr (counted about_page) "num_comments"
        = VInt (Z.of_nat
                  (length (comments_of Article 1 (datastore sample_world)
                           ++ [comment])))).
Proof.
  apply (comment_joins_comment_set sample_ext sample_comment_request
           about_page 1%N sample_world sample_commented);
    vm_compute; reflexivity.
Defined.

(** X11.  A comment POST by a user on a path or a permalink without an
    article answers 404 and does nothing else, on the page handler and on
    the article handler alike. *)
Theorem comment_on_missing_article (ext : externals) (req : request)
    (path year month perm_stem : string) (w : world) :
  "user" ∈ roles req ->
  (head (run_query (by_permalink path) (datastore w)) = None ->
   PageHandler_post ext req path w = error 404 w)
  /\ (head (run_query
              (by_permalink (year +:+ "/" +:+ month +:+ "/" +:+ perm_stem))
              (datastore w)) = None ->
      ArticleHandler_post ext req year month perm_stem w = error 404 w).
Proof.
  intros Hrole.
  split; intros Hnone;
    unfold PageHandler_post, ArticleHandler_post, role;
    rewrite bool_decide_eq_true_2 by done;
    rewrite bind_run; unfold get; by rewrite Hnone.
Qed.

Lemma comment_on_missing_article_witness :
  ("user" ∈ roles sample_comment_request)
  /\ head (run_query (by_permalink "nowhere") (datastore sample_world)) = None
  /\ PageHandler_post sample_ext sample_comment_request "nowhere" sample_world
     = error 404 sample_world.
Proof.
  assert (Hrole : "user" ∈ roles sample_comment_request) by constructor.
  assert (Hnone : head (run_query (by_permalink "nowhere")
                          (datastore sample_world)) = None)
    by (vm_compute; reflexivity).
  split; [exact Hrole|]. split; [exact Hnone|].
  apply (proj1 (comment_on_missing_article sample_ext sample_comment_request
                  "nowhere" "2024" "3" "nope" sample_world Hrole) Hnone).
Defined.

(** ** The debug delete *)





(** ** Queries *)

Lemma lex_compare_antisym a b :
  lex_compare b a = CompOpp (lex_compare a b).
Proof.
  revert b. induction a as [|x a IH]; intros [|y b]; simpl; try done.
  rewrite (Z.compare_antisym x y). destruct (x ?= y); simpl; auto.
Qed.

Lemma datetime_leb_total x y :
  datetime_leb x y = false -> datetime_leb y x = true.
Proof.
  unfold datetime_leb, datetime_compare.
  rewrite (lex_compare_antisym (datetime_fields x) (datetime_fields y)).
  by destruct (lex_compare (datetime_fields x) (datetime_fields y)).
Qed.

Lemma dated_attr prop e : dated prop e -> exists d, attr e prop = VDate d.
Proof. intros [d Hd]. exists d. unfold attr. by rewrite Hd. Qed.

Lemma value_leb_total prop a b :
  dated prop a -> dated prop b ->
  value_leb (attr a prop) (attr b prop) = false ->
  value_leb (attr b prop) (attr a prop) = true.
Proof.
  intros [x ->]%dated_attr [y ->]%dated_attr. apply datetime_leb_total.
Qed.

Lemma elem_of_insert_desc prop e l x :
  x ∈ insert_desc prop e l <-> x = e \/ x ∈ l.
Proof.
  induction l as [|y l IH]; simpl.
  - rewrite list_elem_of_singleton, elem_of_nil. tauto.
  - destruct (value_leb (attr y prop) (attr e prop)).
    + by rewrite elem_of_cons.
    + rewrite !elem_of_cons, IH. tauto.
Qed.

Lemma elem_of_sort_desc prop l x : x ∈ sort_desc prop l <-> x ∈ l.
Proof.
  induction l as [|y l IH]; simpl; [done|].
  rewrite elem_of_insert_desc, elem_of_cons, IH. tauto.
Qed.

Lemma newest_first_insert prop e l :
  dated prop e -> (forall x, x ∈ l -> dated prop x) ->
  newest_first prop l = true ->
  newest_first prop (insert_desc prop e l) = true.
Proof.
  intros He. induction l as [|y l IH]; intros Hl Hsorted; [done|].
  simpl insert_desc.
  destruct (value_leb (attr y prop) (attr e prop)) eqn:Hye.
  - change (value_leb (attr y prop) (attr e prop)
            && newest_first prop (y :: l) = true).
    by rewrite Hye, Hsorted.
  - assert (Hey : value_leb (attr e prop) (attr y prop) = true).
    { apply value_leb_total; [apply Hl; constructor | done | done]. }
    assert (Htail : newest_first prop l = true).
    { destruct l as [|z l]; [done|].
      simpl in Hsorted. by apply andb_true_iff in Hsorted as [_ ?]. }
    assert (IH' := IH (fun x Hx => Hl x (list_elem_of_further _ _ _ Hx))
                      Htail).
    destruct l as [|z l].
    + simpl. by rewrite Hey.
    + simpl in Hsorted. apply andb_true_iff in Hsorted as [Hzy _].
      simpl insert_desc in *.
      destruct (value_leb (attr z prop) (attr e prop)).
      * change (value_leb (attr e prop) (attr y prop)
                && newest_first prop (e :: z :: l) = true).
        by rewrite Hey, IH'.
      * change (value_leb (attr z prop) (attr y prop)
                && newest_first prop (z :: insert_desc prop e l) = true).
        by rewrite Hzy, IH'.
Qed.

Lemma newest_first_sort prop l :
  (forall x, x ∈ l -> dated prop x) ->
  newest_first prop (sort_desc prop l) = true.
Proof.
  induction l as [|y l IH]; intros Hl; [done|]. simpl.
  apply newest_first_insert.
  - apply Hl. constructor.
  - intros x Hx. apply elem_of_sort_desc in Hx. apply Hl. by constructor.
  - apply IH. intros x Hx. apply Hl. by constructor.
Qed.

(** What an ordered query yields: the stored entities that match and have
    the sort property. *)
Lemma elem_of_run_query_ordered q prop ds x :
  q_order_desc q = Some prop ->
  x ∈ run_query q ds
  <-> x ∈ ds /\ entity_matches q x = true /\ is_Some (e_attrs x !! prop).
Proof.
  intros Hq. unfold run_query. rewrite Hq, elem_of_sort_desc.
  rewrite !list_elem_of_In, !filter_In, bool_decide_eq_true. tauto.
Qed.

Lemma newest_first_run_query q prop ds :
  q_order_desc q = Some prop ->
  (forall x, x ∈ ds -> entity_matches q x = true ->
             is_Some (e_attrs x !! prop) -> dated prop x) ->
  newest_first prop (run_query q ds) = true.
Proof.
  intros Hq Hdated. unfold run_query. rewrite Hq.
  apply newest_first_sort. intros x.
  rewrite !list_elem_of_In, !filter_In, bool_decide_eq_true.
  intros [[Hin Hm] Hsome]. apply Hdated; [by apply list_elem_of_In|done..].
Qed.

(** ** The year and month handlers *)

Lemma published_between_matches start_date end_date e :
  entity_matches (published_between start_date end_date) e = true
  <-> e_kind e = Article
      /\ exists d, e_attrs e !! "published" = Some (VDate d)
                   /\ datetime_leb start_date d = true
                   /\ datetime_leb d end_date = true.
Proof.
  unfold entity_matches. simpl.
  rewrite andb_true_iff, bool_decide_eq_true.
  destruct (e_attrs e !! "published") as [[| | |d| | |]|]; simpl;
    try (split; [intros [_ [=]] | intros [_ (? & [=] & _)]]; fail).
  rewrite andb_true_r, andb_true_iff. split.
  - intros (Hk & H1 & H2). eauto.
  - intros (Hk & d' & [= <-] & H1 & H2). eauto.
Qed.

Ltac compare_fields :=
  repeat match goal with
  | |- context [?a ?= ?b] =>
      destruct (Z.compare_spec a b)
  | H : context [?a ?= ?b] |- _ =>
      destruct (Z.compare_spec a b)
  end.

Lemma within_year y d :
  calendar_date d ->
  datetime_leb (mk_datetime y 1 1 0 0 0 0) d = true
  /\ datetime_leb d (mk_datetime y 12 31 23 59 59 0) = true
  <-> dt_year d = y /\ ~ (dt_month d = 12 /\ past_last_second d).
Proof.
  destruct d as [Y Mo D H Mi S U].
  unfold calendar_date, past_last_second, datetime_leb, datetime_compare.
  cbn [lex_compare datetime_fields dt_year dt_month dt_day dt_hour dt_minute
       dt_second dt_microsecond].
  intros (? & ? & ? & ? & ? & ?).
  compare_fields;
    (split; [intros [Hlo Hhi] | intros [Hy Hn]]);
    try discriminate; try lia;
    try (split; [lia | intros (? & ? & ? & ? & ? & ?); lia]);
    try (exfalso; apply Hn; repeat split; lia);
    try (split; reflexivity).
Qed.

Lemma within_month y m d :
  calendar_date d ->
  datetime_leb (mk_datetime y m 1 0 0 0 0) d = true
  /\ datetime_leb d (mk_datetime y m 31 23 59 59 0) = true
  <-> dt_year d = y /\ dt_month d = m /\ ~ past_last_second d.
Proof.
  destruct d as [Y Mo D H Mi S U].
  unfold calendar_date, past_last_second, datetime_leb, datetime_compare.
  cbn [lex_compare datetime_fields dt_year dt_month dt_day dt_hour dt_minute
       dt_second dt_microsecond].
  intros (? & ? & ? & ? & ? & ?).
  compare_fields;
    (split; [intros [Hlo Hhi] | intros (Hy & Hm & Hn)]);
    try discriminate; try lia;
    try (split; [lia | split; [lia | intros (? & ? & ? & ? & ?); lia]]);
    try (exfalso; apply Hn; repeat split; lia);
    try (split; reflexivity).
Qed.

Lemma atoi_error s e : atoi s = inl e -> e = ValueError.
Proof.
  unfold atoi.
  match goal with
  | |- match ?r with _ => _ end = _ -> _ => destruct r
  end; [done | by intros [= <-]].
Qed.

Lemma days_in_month_bounds y m : 28 <= days_in_month y m <= 31.
Proof. unfold days_in_month. repeat case_match; lia. Qed.

(** The first moment of a month exists for every month of every year the
    calendar has; the 31st exists in the months of 31 days. *)
Lemma datetime_new_first y m :
  datetime_new y m 1 0 0 0 =
  if (1 <=? y) && (y <=? 9999) && ((1 <=? m) && (m <=? 12))
  then inr (mk_datetime y m 1 0 0 0 0) else inl ValueError.
Proof.
  unfold datetime_new. pose proof (days_in_month_bounds y m).
  destruct ((1 <=? y) && (y <=? 9999)); simpl; [|done].
  destruct ((1 <=? m) && (m <=? 12)); simpl; [|done].
  rewrite (proj2 (Z.leb_le 1 (days_in_month y m))) by lia. done.
Qed.

Lemma datetime_new_last y m :
  datetime_new y m 31 23 59 59 =
  if (1 <=? y) && (y <=? 9999) && ((1 <=? m) && (m <=? 12))
     && (days_in_month y m =? 31)
  then inr (mk_datetime y m 31 23 59 59 0) else inl ValueError.
Proof.
  unfold datetime_new. pose proof (days_in_month_bounds y m).
  destruct ((1 <=? y) && (y <=? 9999)); simpl; [|done].
  destruct ((1 <=? m) && (m <=? 12)); simpl; [|done].
  destruct (Z.eqb_spec (days_in_month y m) 31) as [->|Hne]; [done|].
  rewrite (proj2 (Z.leb_gt 31 (days_in_month y m))) by lia. done.
Qed.

Lemma YearHandler_get_run req year w :
  YearHandler_get req year w =
  match atoi year with
  | inr y =>
      if year_ok y
      then render_query "articles"
             (published_between (mk_datetime y 1 1 0 0 0 0)
                (mk_datetime y 12 31 23 59 59 0))
             [("title", "Articles for " +:+ year); ("year", year)] w
      else Raise ValueError w
  | inl _ => Raise ValueError w
  end.
Proof.
  unfold YearHandler_get, year_ok.
  destruct (atoi year) as [e|y] eqn:Hy.
  - by rewrite (atoi_error _ _ Hy).
  - cbv [lift mbind M_bind mret M_ret].
    rewrite datetime_new_first, datetime_new_last.
    by destruct ((1 <=? y) && (y <=? 9999)).
Qed.

Lemma MonthHandler_get_run req year month w :
  MonthHandler_get req year month w =
  match atoi year, atoi month with
  | inr y, inr m =>
      if year_ok y && long_month y m
      then render_query "articles"
             (published_between (mk_datetime y m 1 0 0 0 0)
                (mk_datetime y m 31 23 59 59 0))
             [("title", "Articles for " +:+ month +:+ "/" +:+ year);
              ("year", year); ("month", month)] w
      else Raise ValueError w
  | _, _ => Raise ValueError w
  end.
Proof.
  unfold MonthHandler_get, year_ok, long_month.
  destruct (atoi year) as [e|y] eqn:Hy.
  - by rewrite (atoi_error _ _ Hy).
  - destruct (atoi month) as [e|m] eqn:Hm.
    + by rewrite (atoi_error _ _ Hm).
    + cbv [lift mbind M_bind mret M_ret].
      rewrite datetime_new_first, datetime_new_last.
      destruct ((1 <=? y) && (y <=? 9999)); simpl; [|done].
      destruct ((1 <=? m) && (m <=? 12)); simpl; [|done].
      by destruct (days_in_month y m =? 31).
Qed.


Lemma listed_between start_date end_date ds :
  let results := run_query (published_between start_date end_date) ds in
  newest_first "published" results = true
  /\ forall e,
       e ∈ results
       <-> e ∈ ds /\ e_kind e = Article
           /\ exists d, e_attrs e !! "published" = Some (VDate d)
                        /\ datetime_leb start_date d = true
                        /\ datetime_leb d end_date = true.
Proof.
  intros results. split.
  - apply newest_first_run_query; [done|].
    intros x _ (_ & d & Hd & _)%published_between_matches _. by exists d.
  - intros e. unfold results.
    rewrite (elem_of_run_query_ordered _ "published") by done.
    rewrite published_between_matches. split.
    + intros (? & ? & ?). done.
    + intros (? & ? & d & Hd & ?). repeat split; eauto.
Qed.

(** X14.  For a year from 1 to 9999 the year handler renders the stored
    articles published in that year, newest first; an article stamped after
    [23:59:59] sharp on 31 December is left out.  For a month of 31 days the
    month handler does the same for the month. *)
Theorem date_handlers_list (req : request) (year month : string) (y m : Z)
    (w : world) :
  atoi year = inr y -> 1 <= y <= 9999 ->
  (exists results,
     YearHandler_get req year w
     = emit (ERenderQuery "articles" results
               [("title", "Articles for " +:+ year); ("year", year)]) w
     /\ newest_first "published" results = true
     /\ (forall e, e ∈ results ->
           e ∈ datastore w /\ e_kind e = Article /\ dated "published" e)
     /\ forall e d,
          e_attrs e !! "published" = Some (VDate d) -> calendar_date d ->
          (e ∈ results
           <-> e ∈ datastore w /\ e_kind e = Article /\ dt_year d = y
               /\ ~ (dt_month d = 12 /\ past_last_second d)))
  /\ (atoi month = inr m -> m ∈ [1; 3; 5; 7; 8; 10; 12] ->
      exists results,
        MonthHandler_get req year month w
        = emit (ERenderQuery "articles" results
                  [("title", "Articles for " +:+ month +:+ "/" +:+ year);
                   ("year", year); ("month", month)]) w
        /\ newest_first "published" results = true
        /\ (forall e, e ∈ results ->
              e ∈ datastore w /\ e_kind e = Article /\ dated "published" e)
        /\ forall e d,
             e_attrs e !! "published" = Some (VDate d) -> calendar_date d ->
             (e ∈ results
              <-> e ∈ datastore w /\ e_kind e = Article /\ dt_year d = y
                  /\ dt_month d = m /\ ~ past_last_second d)).
Proof.
  intros Hy Hrange.
  assert (Hyok : year_ok y = true).
  { unfold year_ok. rewrite andb_true_iff, !Z.leb_le. lia. }
  split.
  - rewrite YearHandler_get_run, Hy, Hyok.
    destruct (listed_between (mk_datetime y 1 1 0 0 0 0)
                (mk_datetime y 12 31 23 59 59 0) (datastore w))
      as [Hsorted Hin].
    eexists. split; [reflexivity|]. split; [exact Hsorted|]. split.
    + intros e (? & ? & d & ? & _)%Hin. repeat split; [done..|]. by exists d.
    + intros e d Hd Hcal. rewrite Hin, <- (within_year y d Hcal). split.
      * intros (? & ? & d' & Hd' & ? & ?). rewrite Hd in Hd'.
        injection Hd' as <-. done.
      * intros (? & ? & ? & ?). repeat split; eauto.
  - intros Hm Hlong.
    assert (Hmok : long_month y m = true).
    { unfold long_month, days_in_month.
      rewrite !elem_of_cons, elem_of_nil in Hlong.
      destruct Hlong as [->|[->|[->|[->|[->|[->|[->|[]]]]]]]]; reflexivity. }
    rewrite MonthHandler_get_run, Hy, Hm, Hyok, Hmok.
    destruct (listed_between (mk_datetime y m 1 0 0 0 0)
                (mk_datetime y m 31 23 59 59 0) (datastore w))
      as [Hsorted Hin].
    eexists. split; [reflexivity|]. split; [exact Hsorted|]. split.
    + intros e (? & ? & d & ? & _)%Hin. repeat split; [done..|]. by exists d.
    + intros e d Hd Hcal. rewrite Hin, <- (within_month y m d Hcal). split.
      * intros (? & ? & d' & Hd' & ? & ?). rewrite Hd in Hd'.
        injection Hd' as <-. done.
      * intros (? & ? & ? & ?). repeat split; eauto.
Qed.

Lemma date_handlers_list_witness :
  atoi "2024" = inr 2024 /\ 1 <= 2024 <= 9999
  /\ exists results,
       YearHandler_get sample_article_request "2024" sample_posted
       = emit (ERenderQuery "articles" results
                 [("title", "Articles for " +:+ "2024"); ("year", "2024")])
           sample_posted
       /\ newest_first "published" results = true
       /\ (forall e, e ∈ results ->
             e ∈ datastore sample_posted /\ e_kind e = Article
             /\ dated "published" e)
       /\ forall e d,
            e_attrs e !! "published" = Some (VDate d) -> calendar_date d ->
            (e ∈ results
             <-> e ∈ datastore sample_posted /\ e_kind e = Article
                 /\ dt_year d = 2024
                 /\ ~ (dt_month d = 12 /\ past_last_second d)).
Proof.
  split; [reflexivity|]. split; [lia|].
  apply (proj1 (date_handlers_list sample_article_request "2024" "3" 2024 3
                  sample_posted eq_refl ltac:(lia))).
Defined.

(** ** The listings of the root, tag and search handlers *)

Lemma value_matches_eq stored s :
  value_matches stored OpEq (VStr s) = true <-> holds stored s.
Proof.
  unfold holds, value_matches.
  destruct stored; cbv beta iota; rewrite bool_decide_eq_true;
    try (split; [intros [=] | intros [[=]|(? & [=] & _)]]; fail).
  - split; [intros [= ->]; by left | intros [[= ->]|(? & [=] & _)]; done].
  - split; [intros ?; right; eauto | intros [[=]|(? & [= <-] & ?)]; done].
Qed.

Lemma eq_filter_matches prop s e :
  entity_matches
    (order_desc (filter_by (Query_new Article) prop OpEq (VStr s))
       "published") e = true
  <-> e_kind e = Article
      /\ exists stored, e_attrs e !! prop = Some stored /\ holds stored s.
Proof.
  unfold entity_matches, order_desc, filter_by, Query_new.
  cbn [q_kind q_filters app forallb fst snd].
  rewrite andb_true_iff, bool_decide_eq_true, andb_true_r.
  destruct (e_attrs e !! prop) as [stored|].
  - rewrite value_matches_eq. split.
    + intros [? ?]. eauto.
    + intros (? & ? & [= <-] & ?). done.
  - split; [intros [_ [=]] | intros (_ & ? & [=] & _)].
Qed.

Lemma listed_by_property prop s ds :
  published_dates ds ->
  let results :=
    run_query (order_desc (filter_by (Query_new Article) prop OpEq (VStr s))
                 "published") ds in
  newest_first "published" results = true
  /\ forall e,
       e ∈ results
       <-> e ∈ ds /\ e_kind e = Article
           /\ is_Some (e_attrs e !! "published")
           /\ exists stored, e_attrs e !! prop = Some stored /\ holds stored s.
Proof.
  intros Hdates results. split.
  - apply newest_first_run_query; [done|].
    intros x Hin _ [v Hv]. destruct (Hdates x v Hin Hv) as [d ->]. by exists d.
  - intros e. unfold results.
    rewrite (elem_of_run_query_ordered _ "published") by done.
    rewrite eq_filter_matches. tauto.
Qed.

(** X15.  The root handler renders the stored blog articles that have a
    publication date, newest first; a page is never among them. *)
Theorem RootHandler_get_lists_blog (req : request) (w : world) :
  published_dates (datastore w) ->
  exists results,
    RootHandler_get req w = emit (ERenderQuery "articles" results []) w
    /\ newest_first "published" results = true
    /\ (forall e,
          e ∈ results
          <-> e ∈ datastore w /\ e_kind e = Article
              /\ is_Some (e_attrs e !! "published")
              /\ exists stored, e_attrs e !! "article_type" = Some stored
                                /\ holds stored "blog")
    /\ forall e, e ∈ results -> attr e "article_type" <> VStr "page".
Proof.
  intros Hdates.
  destruct (listed_by_property "article_type" "blog" _ Hdates)
    as [Hsorted Hin].
  eexists. split; [reflexivity|]. split; [exact Hsorted|].
  split; [exact Hin|].
  intros e (_ & _ & _ & stored & Hst & Hholds)%Hin.
  unfold attr. rewrite Hst. simpl.
  destruct Hholds as [->|(l & -> & _)]; discriminate.
Qed.

Lemma sample_posted_dates : published_dates (datastore sample_posted).
Proof.
  intros e v Hin Hv. vm_compute in Hin.
  apply elem_of_cons in Hin as [->|Hin].
  { vm_compute in Hv. discriminate. }
  apply list_elem_of_singleton in Hin as ->.
  vm_compute in Hv. injection Hv as <-. eauto.
Defined.

Lemma RootHandler_get_lists_blog_witness :
  exists results,
    RootHandler_get sample_article_request sample_posted
    = emit (ERenderQuery "articles" results []) sample_posted
    /\ newest_first "published" results = true
    /\ (forall e,
          e ∈ results
          <-> e ∈ datastore sample_posted /\ e_kind e = Article
              /\ is_Some (e_attrs e !! "published")
              /\ exists stored, e_attrs e !! "article_type" = Some stored
                                /\ holds stored "blog")
    /\ forall e, e ∈ results -> attr e "article_type" <> VStr "page".
Proof.
  apply (RootHandler_get_lists_blog sample_article_request sample_posted).
  exact sample_posted_dates.
Defined.

(** ** Tags in the address *)

Lemma hex_char_digits a b :
  hex_char a b = None <-> digit_of a = None \/ digit_of b = None.
Proof.
  unfold hex_char. destruct (digit_of a), (digit_of b); split;
    intros; try done; try (by left); try (by right).
  by destruct H.
Qed.

Lemma unquote_escape a b s :
  unquote (String "%" (String a (String b s)))
  = let short :=
      match hex_char a b with
      | Some ch => String ch (unquote s)
      | None => String "%" (unquote (String a (String b s)))
      end in
    if Ascii.eqb a "2" && Ascii.eqb b "5" then
      match s with
      | String d1 (String d2 s5) =>
          match hex_char d1 d2 with
          | Some ch => String ch (unquote s5)
          | None => short
          end
      | _ => short
      end
    else short.
Proof. reflexivity. Qed.

Lemma length_unquote_bounded n s :
  (String.length s <= n)%nat ->
  (String.length (unquote s) <= String.length s)%nat.
Proof.
  revert s. induction n as [|n IH]; intros s Hn.
  - destruct s; [done | simpl in Hn; lia].
  - destruct s as [|c s1]; [done|].
    assert (Hs1 : (String.length (unquote s1) <= String.length s1)%nat).
    { apply IH. simpl in Hn. lia. }
    simpl. destruct (Ascii.eqb c "%"); [|simpl; lia].
    destruct s1 as [|x [|y s3]]; [simpl in *; lia..|].
    assert (Hs3 : (String.length (unquote s3) <= String.length s3)%nat).
    { apply IH. simpl in Hn. lia. }
    assert (Hshort :
      (String.length
         match hex_char x y with
         | Some ch => String ch (unquote s3)
         | None => String c (unquote (String x (String y s3)))
         end <= S (S (S (String.length s3))))%nat).
    { destruct (hex_char x y); simpl in *; lia. }
    destruct (Ascii.eqb x "2" && Ascii.eqb y "5"); [|exact Hshort].
    destruct s3 as [|d1 [|d2 s5]]; [exact Hshort..|].
    destruct (hex_char d1 d2); [|exact Hshort].
    assert (Hs5 : (String.length (unquote s5) <= String.length s5)%nat).
    { apply IH. simpl in Hn. lia. }
    simpl. lia.
Qed.

Lemma unquote_plain s :
  Str.all_chars (fun c => negb (is_percent c)) s = true -> unquote s = s.
Proof.
  induction s as [|c s IH]; simpl; [done|].
  unfold is_percent at 1. rewrite andb_true_iff, negb_true_iff.
  intros [-> Hs]. by rewrite IH.
Qed.

(** X16.  Decoding a tag leaves a string without a percent sign as it is and
    never makes a string longer.  A percent sign that is not followed by two
    decimal digits stays, so an escape with a hexadecimal letter such as
    [%2F] is not decoded; and [%25] before two digits is consumed with them,
    giving the one character the digits name. *)
Theorem unquote_properties (s : string) (a b : ascii) :
  (Str.all_chars (fun c => negb (is_percent c)) s = true -> unquote s = s)
  /\ (String.length (unquote s) <= String.length s)%nat
  /\ (digit_of a = None \/ digit_of b = None ->
      unquote (String "%" (String a (String b s)))
      = String "%" (unquote (String a (String b s))))
  /\ (forall ch, hex_char a b = Some ch ->
      unquote (String "%" (String "2" (String "5" (String a (String b s)))))
      = String ch (unquote s)).
Proof.
  repeat split.
  - apply unquote_plain.
  - by apply (length_unquote_bounded (String.length s)).
  - intros Hnone. apply hex_char_digits in Hnone.
    rewrite unquote_escape. cbv zeta. rewrite Hnone.
    destruct (Ascii.eqb a "2" && Ascii.eqb b "5") eqn:H25; [|done].
    apply andb_true_iff in H25 as [->%Ascii.eqb_eq ->%Ascii.eqb_eq].
    discriminate.
  - intros ch Hch. rewrite unquote_escape. cbv zeta.
    change (Ascii.eqb "2" "2" && Ascii.eqb "5" "5") with true.
    cbv iota. by rewrite Hch.
Qed.

Lemma unquote_properties_witness :
  (digit_of "2" = None \/ digit_of "F" = None)
  /\ unquote (String "%" (String "2" (String "F" "rocq")))
     = String "%" (unquote (String "2" (String "F" "rocq"))).
Proof.
  assert (H : digit_of "2" = None \/ digit_of "F" = None)
    by (right; reflexivity).
  split; [exact H|].
  apply (proj1 (proj2 (proj2 (unquote_properties "rocq" "2" "F"))) H).
Defined.

(** X17.  For a term without a percent sign the tag handler and the search
    handler render the same articles: the stored articles with a publication
    date that have the term among their tags, newest first.  The search
    compares whole tags; it does not look into titles or bodies. *)
Theorem tag_and_search_listing (req req' : request) (term : string)
    (w : world) :
  published_dates (datastore w) ->
  Str.all_chars (fun c => negb (is_percent c)) term = true ->
  request_get req' "s" = term ->
  exists results,
    TagHandler_get req term w
    = emit (ERenderQuery "articles" results [("tag", term)]) w
    /\ SearchHandler_get req' w
       = emit (ERenderQuery "articles" results [("search_term", term)]) w
    /\ newest_first "published" results = true
    /\ forall e,
         e ∈ results
         <-> e ∈ datastore w /\ e_kind e = Article
             /\ is_Some (e_attrs e !! "published")
             /\ exists stored, e_attrs e !! "tags" = Some stored
                               /\ holds stored term.
Proof.
  intros Hdates Hplain Hterm.
  destruct (listed_by_property "tags" term _ Hdates) as [Hsorted Hin].
  unfold TagHandler_get, SearchHandler_get.
  rewrite (unquote_plain term Hplain), Hterm.
  eexists. split; [reflexivity|]. split; [reflexivity|].
  split; [exact Hsorted | exact Hin].
Qed.

Lemma tag_and_search_listing_witness :
  exists results,
    TagHandler_get sample_article_request "rocq" sample_posted
    = emit (ERenderQuery "articles" results [("tag", "rocq")]) sample_posted
    /\ SearchHandler_get sample_search_request sample_posted
       = emit (ERenderQuery "articles" results [("search_term", "rocq")])
           sample_posted
    /\ newest_first "published" results = true
    /\ forall e,
         e ∈ results
         <-> e ∈ datastore sample_posted /\ e_kind e = Article
             /\ is_Some (e_attrs e !! "published")
             /\ exists stored, e_attrs e !! "tags" = Some stored
                               /\ holds stored "rocq".
Proof.
  apply (tag_and_search_listing sample_article_request sample_search_request
           "rocq" sample_posted sample_posted_dates); reflexivity.
Defined.

(** ** The layout of an article *)

(** X18.  Whether an article is shown in two columns.  More comments never
    turn two columns back into one; rendered HTML of more than 2000
    characters always gives two columns; and an article that is not big and
    has no rendered HTML cannot be laid out: [len(None)] raises. *)
Theorem use_two_columns_properties (ext : externals) (article : entity)
    (comments more : list entity) (w : world) :
  (use_two_columns ext article comments w = Ok true w ->
   use_two_columns ext article (comments ++ more) w = Ok true w)
  /\ (forall html, attr article "html" = VStr html ->
        (2000 < String.length html)%nat ->
        use_two_columns ext article comments w = Ok true w)
  /\ (is_big ext article = false -> attr article "html" = VNone ->
      use_two_columns ext article comments w = Raise TypeError w).
Proof.
  unfold use_two_columns, py_len. repeat split.
  - destruct (is_big ext article); [done|].
    destruct (attr article "html"); try done;
      rewrite !bind_run; cbv [mret M_ret];
      intros [= H%Z.ltb_lt]; do 2 f_equal; apply Z.ltb_lt;
      rewrite length_app; lia.
  - intros html -> Hlong. destruct (is_big ext article); [done|].
    rewrite bind_run. cbv [mret M_ret]. do 2 f_equal. apply Z.ltb_lt. lia.
  - by intros -> ->.
Qed.

Lemma use_two_columns_properties_witness :
  is_big sample_ext bare_article = false
  /\ attr bare_article "html" = VNone
  /\ use_two_columns sample_ext bare_article [] sample_world
     = Raise TypeError sample_world.
Proof.
  split; [reflexivity|]. split; [reflexivity|].
  apply (proj2 (proj2 (use_two_columns_properties sample_ext bare_article
                         [] [] sample_world))); reflexivity.
Defined.

(** ** A comment submission that fails half way *)

Lemma comment_tail_fails_quietly ext req key :
  fails_quietly
    (get_hash_from_request req (comment_fields ext) ≫= fun property_hash =>
     item property_hash "name" ≫= fun name =>
     item property_hash "email" ≫= fun email =>
     item property_hash "body" ≫= fun body =>
     item property_hash "body" ≫= fun body' =>
     item property_hash "thread" ≫= fun thread =>
     put (fill_optional_properties
            (model_new Comment
               [("permalink", VStr (pretty (py_hash ext name email body)));
                ("body", body'); ("article", key); ("thread", thread)])
            property_hash) ≫= fun _ =>
     successful_post_response
       (attr (fill_optional_properties
                (model_new Comment
                   [("permalink", VStr (pretty (py_hash ext name email body)));
                    ("body", body'); ("article", key); ("thread", thread)])
                property_hash) "permalink") "comment" ≫= fun _ =>
     invalidate_cache).
Proof.
  apply bind_fails_quietly.
  { apply quiet_get_hash_from_request, quiet_comment_fields. }
  intros h.
  do 5 (apply bind_fails_quietly; [auto with quiet|]; intros ?).
  intros w e w'. rewrite bind_run. unfold put.
  match goal with
  | |- context [e_key ?x] => destruct (e_key x)
  end; simpl; discriminate.
Qed.

(** X19.  A comment submission on a stored article that raises after the
    counter was raised leaves the article stored with the raised counter and
    no new comment: the comments that refer to the article are those from
    before, so the counter is one ahead of them. *)
Theorem failed_comment_keeps_raised_counter (ext : externals) (req : request)
    (article : entity) (id : N) (w w' : world) (e : exn) :
  e_kind article = Article ->
  e_key article = Some id ->
  is_counter (attr article "num_comments") = true ->
  process_comment_submission ext req (Some article) w = Raise e w' ->
  datastore w' = replaced (counted article) id (datastore w)
  /\ counted article ∈ datastore w'
  /\ attr (counted article) "num_comments"
     = VInt (next_count (attr article "num_comments"))
  /\ comments_of Article id (datastore w')
     = comments_of Article id (datastore w)
  /\ cache_flushes w' = cache_flushes w.
Proof.
  intros Hkind Hkey Hcounter. unfold process_comment_submission.
  rewrite bind_run, bump_num_comments_run, Hcounter, orb_true_l.
  rewrite bind_run. unfold put at 1.
  change (e_key (counted article)) with (e_key article).
  change (e_kind (counted article)) with (e_kind article).
  rewrite Hkey. intros Hrun.
  apply comment_tail_fails_quietly in Hrun as (_ & Hds & _ & Hcache).
  simpl in Hds, Hcache.
  assert (Hstore : datastore w' = replaced (counted article) id (datastore w)).
  { by rewrite Hds. }
  split; [done|]. rewrite Hstore. split; [apply elem_of_replaced|].
  split.
  - unfold counted, attr at 1, set_attr. simpl e_attrs.
    by rewrite lookup_insert_eq.
  - split; [by apply comments_of_replaced | done].
Qed.

Lemma failed_comment_keeps_raised_counter_witness :
  let w' := final_world
              (process_comment_submission sample_ext anonymous_comment_request
                 (Some about_page) sample_world) in
  datastore w' = replaced (counted about_page) 1 (datastore sample_world)
  /\ counted about_page ∈ datastore w'
  /\ attr (counted about_page) "num_comments"
     = VInt (next_count (attr about_page "num_comments"))
  /\ comments_of Article 1 (datastore w')
     = comments_of Article 1 (datastore sample_world)
  /\ cache_flushes w' = cache_flushes sample_world.
Proof.
  apply (failed_comment_keeps_raised_counter sample_ext
           anonymous_comment_request about_page 1%N sample_world _
           (KeyError "name")); vm_compute; reflexivity.
Defined.

(** ** Pages, round trip *)

(** X20.  Round trip for pages: after a successful POST on the root handler
    by an admin, a GET on the page handler with the slug of the title shows
    the new page, provided the slug matches no legacy alias, is not caught by
    the legacy id mapping, and no older article has it as permalink. *)
Theorem page_post_then_get (ext : externals) (req req' : request)
    (w w' : world) (a : entity) :
  "admin" ∈ roles req ->
  RootHandler_post ext req w = Ok tt w' ->
  last (datastore w') = Some a ->
  find_alias (get_friendly_url (request_get req "title")) (redirects ext)
  = None ->
  (forall mapping, legacy_id_mapping ext = Some mapping ->
     regex mapping (get_friendly_url (request_get req "title")) = None) ->
  run_query (by_permalink (get_friendly_url (request_get req "title")))
    (datastore w) = [] ->
  exists two comments,
    PageHandler_get ext req' (get_friendly_url (request_get req "title")) w'
    = render (mk_render_context two (VStr (request_get req "title")) a
                comments) w'.
Proof.
  intros Hrole Hrun Hlast Halias Hlegacy Hfree.
  unfold RootHandler_post, role in Hrun.
  rewrite bool_decide_eq_true_2 in Hrun by done.
  apply process_article_submission_stored in Hrun
    as (a0 & d0 & html & f & w0 & w0' & Hds & _ & _ & Hkind & _ & _ & Htitle
        & _ & _ & Hhtml & _ & Hf & Hperm).
  rewrite Hds, last_snoc in Hlast. injection Hlast as ->.
  assert (f = permalink_page) as -> by (by inversion Hf).
  unfold permalink_page in Hperm. rewrite bind_run in Hperm.
  cbv [friendly_url_of mret M_ret] in Hperm. inversion Hperm as [[Hp Hw]].
  assert (Hget : get (by_permalink
                        (get_friendly_url (request_get req "title"))) w'
                 = Ok (Some a) w').
  { unfold get, run_query. simpl q_order_desc. cbv iota.
    rewrite Hds, List.filter_app. unfold run_query in Hfree.
    simpl in Hfree. rewrite Hfree. simpl.
    by rewrite (by_permalink_matches a _ Hkind (eq_sym Hp)). }
  assert (Hleg : legacy_lookup ext
                   (get_friendly_url (request_get req "title")) w'
                 = Ok None w').
  { unfold legacy_lookup. destruct (legacy_id_mapping ext) as [m|]; [|done].
    by rewrite (Hlegacy m eq_refl). }
  unfold PageHandler_get. rewrite Halias, bind_run, Hleg, bind_run, Hget.
  rewrite bind_run. unfold comment_set at 1. rewrite bind_run.
  unfold use_two_columns, py_len. rewrite Htitle, Hhtml.
  destruct (is_big ext a); eexists _, _; reflexivity.
Qed.

Lemma page_post_then_get_witness :
  exists two comments,
    PageHandler_get sample_ext sample_comment_request
      (get_friendly_url (request_get sample_article_request "title"))
      sample_page_posted
    = render (mk_render_context two
                (VStr (request_get sample_article_request "title"))
                sample_page comments) sample_page_posted.
Proof.
  apply (page_post_then_get sample_ext sample_article_request
           sample_comment_request sample_world sample_page_posted
           sample_page).
  - repeat constructor.
  - vm_compute; reflexivity.
  - vm_compute; reflexivity.
  - vm_compute; reflexivity.
  - intros mapping Hm. vm_compute in Hm. discriminate.
  - vm_compute; reflexivity.
Defined.
